(** * Store inventory application (st.py): data layer, authentication, sales

    A shallow embedding of the storage functions of [st.py], of the
    low-stock view and the forms of [main_app], of the forms of
    [auth_page] and of the runs of the script, with the properties of the
    specification and further properties of the code stated and proved
    over it.

    Modelling conventions.
    - A Python [str] is a [string] holding its UTF-8 bytes, so
      [str.encode] is the list of those bytes and SQLite's TEXT equality
      (BINARY collation) is equality of strings.
    - INTEGER columns hold integers ([Z]) and REAL columns binary64 floats
      ([float]). The table functions ([add_item], [record_sale], ...) give
      what the statements of a function do to such tables once its
      parameters are bound, with the arithmetic of [Z]; the module [Call]
      gives the calls as Python runs them, with what the sqlite3 module
      does when it binds a parameter ([OverflowError] for an [int] outside
      64 bits, a BLOB for a [numpy.int64]) and what SQLite does to the
      values it stores.
    - The three tables of [inventory.db] are the fields of [db]; the
      AUTOINCREMENT counters kept in [sqlite_sequence] are explicit.
    - Every function opens a connection, runs its statements on the
      connection's working copy, commits and closes; closing without a
      commit discards the working copy. *)

From Stdlib Require Import ZArith String Ascii List Floats.
From stdpp Require Import base decidable option list sorting gmap strings.

Local Open Scope Z_scope.

(** ** hashlib.sha256(...).hexdigest() *)

Module SHA256.

Definition mask32 : Z := 0xffffffff.

Definition add32 (a b : Z) : Z := Z.land (a + b) mask32.

Definition rotr (n x : Z) : Z :=
  Z.land (Z.lor (Z.shiftr x n) (Z.shiftl x (32 - n))) mask32.

Definition ch (x y z : Z) : Z :=
  Z.lxor (Z.land x y) (Z.land (Z.lxor x mask32) z).

Definition maj (x y z : Z) : Z :=
  Z.lxor (Z.lxor (Z.land x y) (Z.land x z)) (Z.land y z).

Definition big_sigma0 (x : Z) : Z :=
  Z.lxor (Z.lxor (rotr 2 x) (rotr 13 x)) (rotr 22 x).

Definition big_sigma1 (x : Z) : Z :=
  Z.lxor (Z.lxor (rotr 6 x) (rotr 11 x)) (rotr 25 x).

Definition small_sigma0 (x : Z) : Z :=
  Z.lxor (Z.lxor (rotr 7 x) (rotr 18 x)) (Z.shiftr x 3).

Definition small_sigma1 (x : Z) : Z :=
  Z.lxor (Z.lxor (rotr 17 x) (rotr 19 x)) (Z.shiftr x 10).

(** Hexadecimal text, used to write the constants down and to print
    the digest. *)
Definition hex_value (c : ascii) : Z :=
  let n := Z.of_N (N_of_ascii c) in
  if (48 <=? n) && (n <=? 57) then n - 48
  else if (97 <=? n) && (n <=? 102) then n - 87
  else -1.

Fixpoint words_of_hex (acc : Z) (s : string) : list Z :=
  match s with
  | EmptyString => [acc]
  | String c rest =>
      if Ascii.eqb c " "%char then acc :: words_of_hex 0 rest
      else words_of_hex (16 * acc + hex_value c) rest
  end.

Definition hex_char (n : Z) : ascii :=
  ascii_of_N (Z.to_N (if n <? 10 then 48 + n else 87 + n)).

Definition hex_byte (b : Z) : string :=
  String (hex_char (Z.shiftr b 4)) (String (hex_char (Z.land b 15)) EmptyString).

Definition round_constants : list Z := Eval vm_compute in
  words_of_hex 0
    ("428a2f98 71374491 b5c0fbcf e9b5dba5 3956c25b 59f111f1 923f82a4 ab1c5ed5 " ++
     "d807aa98 12835b01 243185be 550c7dc3 72be5d74 80deb1fe 9bdc06a7 c19bf174 " ++
     "e49b69c1 efbe4786 0fc19dc6 240ca1cc 2de92c6f 4a7484aa 5cb0a9dc 76f988da " ++
     "983e5152 a831c66d b00327c8 bf597fc7 c6e00bf3 d5a79147 06ca6351 14292967 " ++
     "27b70a85 2e1b2138 4d2c6dfc 53380d13 650a7354 766a0abb 81c2c92e 92722c85 " ++
     "a2bfe8a1 a81a664b c24b8b70 c76c51a3 d192e819 d6990624 f40e3585 106aa070 " ++
     "19a4c116 1e376c08 2748774c 34b0bcb5 391c0cb3 4ed8aa4a 5b9cca4f 682e6ff3 " ++
     "748f82ee 78a5636f 84c87814 8cc70208 90befffa a4506ceb bef9a3f7 c67178f2")%string.

Definition initial_hash : list Z := Eval vm_compute in
  words_of_hex 0
    "6a09e667 bb67ae85 3c6ef372 a54ff53a 510e527f 9b05688c 1f83d9ab 5be0cd19".

(** Padding: a 1 bit, zeros up to 56 mod 64 bytes, then the bit length
    as a 64-bit big-endian number. *)
Definition be_bytes (count : nat) (n : Z) : list Z :=
  map (fun i => Z.land (Z.shiftr n (8 * Z.of_nat i)) 255) (rev (seq 0 count)).

Definition pad (msg : list Z) : list Z :=
  let len := Z.of_nat (length msg) in
  let zeros := Z.to_nat ((55 - len) mod 64) in
  msg ++ [128] ++ repeat 0 zeros ++ be_bytes 8 (8 * len).

Fixpoint be_words (fuel : nat) (bytes : list Z) : list Z :=
  match fuel, bytes with
  | S fuel', b0 :: b1 :: b2 :: b3 :: rest =>
      (Z.shiftl b0 24 + Z.shiftl b1 16 + Z.shiftl b2 8 + b3)
        :: be_words fuel' rest
  | _, _ => []
  end.

(** The message schedule, most recent word first. *)
Fixpoint schedule (steps : nat) (recent : list Z) : list Z :=
  match steps with
  | O => recent
  | S steps' =>
      let w i := nth i recent 0 in
      let next :=
        add32 (add32 (small_sigma1 (w 1%nat)) (w 6%nat))
              (add32 (small_sigma0 (w 14%nat)) (w 15%nat)) in
      schedule steps' (next :: recent)
  end.

Record state := State { a : Z; b : Z; c : Z; d : Z; e : Z; f : Z; g : Z; h : Z }.

Definition round (s : state) (kw : Z * Z) : state :=
  let t1 := add32 (add32 (add32 (h s) (big_sigma1 (e s))) (ch (e s) (f s) (g s)))
                  (add32 (fst kw) (snd kw)) in
  let t2 := add32 (big_sigma0 (a s)) (maj (a s) (b s) (c s)) in
  State (add32 t1 t2) (a s) (b s) (c s) (add32 (d s) t1) (e s) (f s) (g s).

Definition state_of_words (ws : list Z) : state :=
  let w i := nth i ws 0 in
  State (w 0%nat) (w 1%nat) (w 2%nat) (w 3%nat) (w 4%nat) (w 5%nat) (w 6%nat) (w 7%nat).

Definition words_of_state (s : state) : list Z :=
  [a s; b s; c s; d s; e s; f s; g s; h s].

Definition compress (hash : list Z) (block : list Z) : list Z :=
  let w := rev (schedule 48 (rev block)) in
  let s := fold_left round (combine round_constants w) (state_of_words hash) in
  map (fun p => add32 (fst p) (snd p)) (combine hash (words_of_state s)).

Fixpoint blocks (fuel : nat) (ws : list Z) : list (list Z) :=
  match fuel, ws with
  | S fuel', _ :: _ => firstn 16 ws :: blocks fuel' (skipn 16 ws)
  | _, _ => []
  end.

Definition digest (msg : list Z) : list Z :=
  let bytes := pad msg in
  let ws := be_words (length bytes) bytes in
  let hash := fold_left compress (blocks (length ws) ws) initial_hash in
  concat (map (be_bytes 4) hash).

Definition hexdigest (msg : list Z) : string :=
  fold_right (fun b acc => (hex_byte b ++ acc)%string) EmptyString (digest msg).

End SHA256.

(** [str.encode(s)]: the UTF-8 bytes of the string. *)
Definition str_encode (s : string) : list Z :=
  map (fun c => Z.of_N (N_of_ascii c)) (list_ascii_of_string s).

Definition make_hashes (password : string) : string :=
  SHA256.hexdigest (str_encode password).

Definition check_hashes (password hashed_text : string) : bool :=
  String.eqb (make_hashes password) hashed_text.

(** ** Python values and outcomes *)

(** The values the modelled functions hand back: [None] or a [bool]. *)
Inductive pyval := PyNone | PyBool (b : bool).

(** Truth value of a result, as [if login_user(...)] tests it. *)
Definition truthy (v : pyval) : bool :=
  match v with
  | PyNone => false
  | PyBool b => b
  end.

(** Exceptions of the [sqlite3] module. *)
Inductive sqlite3_error := IntegrityError | OperationalError.

(** A call either returns a value or lets an exception escape. *)
Inductive outcome (A : Type) :=
| Returns (v : A)
| Raises (err : sqlite3_error).
Arguments Returns {A} v.
Arguments Raises {A} err.

(** ** datetime.now().strftime("%Y-%m-%d %H:%M:%S") *)

Record datetime := Datetime {
  year : Z; month : Z; day : Z;
  hour : Z; minute : Z; second : Z; microsecond : Z }.

Definition digit (n : Z) : ascii := ascii_of_N (Z.to_N (48 + n mod 10)).

(** [n] written with exactly [width] decimal digits, zero padded. *)
Fixpoint zero_pad (width : nat) (n : Z) : string :=
  match width with
  | O => EmptyString
  | S width' => zero_pad width' (n / 10) +:+ String (digit n) EmptyString
  end.

(** The format [%Y-%m-%d %H:%M:%S]; the years [datetime.now()] yields
    have four digits. *)
Definition strftime (t : datetime) : string :=
  zero_pad 4 (year t) +:+ "-" +:+ zero_pad 2 (month t) +:+ "-" +:+ zero_pad 2 (day t)
  +:+ " " +:+ zero_pad 2 (hour t) +:+ ":" +:+ zero_pad 2 (minute t)
  +:+ ":" +:+ zero_pad 2 (second t).

Definition truncate_to_second (t : datetime) : datetime :=
  Datetime (year t) (month t) (day t) (hour t) (minute t) (second t) 0.

(** ** The tables of inventory.db *)

(** [inventory (id INTEGER PRIMARY KEY AUTOINCREMENT, item TEXT,
    category TEXT, quantity INTEGER, price REAL, min_stock INTEGER)] *)
Module Inventory.
Record row := Row {
  id : Z; item : string; category : string;
  quantity : Z; price : float; min_stock : Z }.
End Inventory.

(** [sales (id INTEGER PRIMARY KEY AUTOINCREMENT, item_id INTEGER,
    quantity INTEGER, sale_price REAL, sale_date TEXT)]. The FOREIGN KEY
    clause is not enforced: no connection turns [PRAGMA foreign_keys] on. *)
Module Sales.
Record row := Row {
  id : Z; item_id : Z; quantity : Z; sale_price : float; sale_date : string }.
End Sales.

(** A row of the result of [get_sales]:
    [s.id, i.item, s.quantity, s.sale_price, s.sale_date]. *)
Module SaleView.
Record row := Row {
  id : Z; item : string; quantity : Z; sale_price : float; sale_date : string }.
End SaleView.

(** [users (username TEXT PRIMARY KEY, password TEXT)] is a finite map
    from the key to the stored digest; the two other tables list their
    rows in rowid order, with their AUTOINCREMENT counters. *)
Record db := Db {
  users : gmap string string;
  inventory : list Inventory.row;
  inventory_seq : Z;
  sales : list Sales.row;
  sales_seq : Z }.

(** The file after the three [CREATE TABLE IF NOT EXISTS] statements ran
    on a new database. *)
Definition empty_db : db := Db ∅ [] 0 [] 0.

Definition set_users (us : gmap string string) (d : db) : db :=
  Db us (inventory d) (inventory_seq d) (sales d) (sales_seq d).

Definition set_inventory (rows : list Inventory.row) (d : db) : db :=
  Db (users d) rows (inventory_seq d) (sales d) (sales_seq d).

(** The row [r] with its quantity column replaced. *)
Definition with_quantity (quantity : Z) (r : Inventory.row) : Inventory.row :=
  Inventory.Row (Inventory.id r) (Inventory.item r) (Inventory.category r)
    quantity (Inventory.price r) (Inventory.min_stock r).

(** ** SQL statements *)

Module Sql.

(** [INSERT INTO users VALUES (?,?)]: the primary key rejects a
    username that is already there. *)
Definition insert_user (username password : string) (d : db) : sqlite3_error + db :=
  match users d !! username with
  | Some _ => inl IntegrityError
  | None => inr (set_users (<[username := password]> (users d)) d)
  end.

(** [INSERT OR IGNORE INTO users VALUES (?, ?)] *)
Definition insert_or_ignore_user (username password : string) (d : db) : db :=
  match users d !! username with
  | Some _ => d
  | None => set_users (<[username := password]> (users d)) d
  end.

(** [SELECT * FROM users WHERE username = ?] followed by [fetchone()] *)
Definition select_user (username : string) (d : db) : option (string * string) :=
  (fun password => (username, password)) <$> users d !! username.

(** The rowid an AUTOINCREMENT table gives its next row: one more than
    the largest rowid the table has ever held. *)
Definition next_rowid (seq : Z) (ids : list Z) : Z :=
  Z.max seq (fold_right Z.max 0 ids) + 1.

(** [INSERT INTO inventory (item, category, quantity, price, min_stock)
    VALUES (?,?,?,?,?)] *)
Definition insert_inventory (item category : string) (quantity : Z) (price : float)
    (min_stock : Z) (d : db) : db :=
  let new_id := next_rowid (inventory_seq d) (Inventory.id <$> inventory d) in
  Db (users d)
     (inventory d ++ [Inventory.Row new_id item category quantity price min_stock])
     new_id (sales d) (sales_seq d).

(** [UPDATE inventory SET item=?, category=?, quantity=?, price=?,
    min_stock=? WHERE id=?] *)
Definition update_inventory (item category : string) (quantity : Z) (price : float)
    (min_stock item_id : Z) (d : db) : db :=
  set_inventory
    ((fun r => if decide (Inventory.id r = item_id)
               then Inventory.Row (Inventory.id r) item category quantity price min_stock
               else r) <$> inventory d) d.

(** [DELETE FROM inventory WHERE id=?] *)
Definition delete_inventory (item_id : Z) (d : db) : db :=
  set_inventory (filter (fun r => Inventory.id r ≠ item_id) (inventory d)) d.

(** [UPDATE inventory SET quantity = quantity - ? WHERE id = ?], as long
    as the difference stays within 64 bits ([Call.record_sale] tells when
    it does not). *)
Definition decrement_quantity (quantity item_id : Z) (d : db) : db :=
  set_inventory
    ((fun r => if decide (Inventory.id r = item_id)
               then with_quantity (Inventory.quantity r - quantity) r
               else r) <$> inventory d) d.

(** [INSERT INTO sales (item_id, quantity, sale_price, sale_date)
    VALUES (?,?,?,?)] *)
Definition insert_sale (item_id quantity : Z) (sale_price : float) (sale_date : string)
    (d : db) : db :=
  let new_id := next_rowid (sales_seq d) (Sales.id <$> sales d) in
  Db (users d) (inventory d) (inventory_seq d)
     (sales d ++ [Sales.Row new_id item_id quantity sale_price sale_date])
     new_id.

(** [SELECT * FROM inventory] *)
Definition select_inventory (d : db) : list Inventory.row := inventory d.

(** [SELECT s.id, i.item, s.quantity, s.sale_price, s.sale_date
    FROM sales s JOIN inventory i ON s.item_id = i.id] *)
Definition joined (s : Sales.row) (i : Inventory.row) : SaleView.row :=
  SaleView.Row (Sales.id s) (Inventory.item i) (Sales.quantity s)
    (Sales.sale_price s) (Sales.sale_date s).

(** The rows one sale contributes: one for each inventory row that
    satisfies the ON condition. *)
Definition sale_rows (items : list Inventory.row) (s : Sales.row) : list SaleView.row :=
  joined s <$> filter (fun i => Sales.item_id s = Inventory.id i) items.

Definition select_sales_join (d : db) : list SaleView.row :=
  s ← sales d; sale_rows (inventory d) s.

End Sql.

(** ** Connections *)

(** A connection holds the committed content of the file and the working
    copy its statements act on. *)
Record connection := Connection { durable : db; working : db }.

Definition connect (file : db) : connection := Connection file file.

Definition execute (statement : db -> db) (conn : connection) : connection :=
  Connection (durable conn) (statement (working conn)).

Definition commit (conn : connection) : connection :=
  Connection (working conn) (working conn).

(** Closing leaves the file with what was committed. *)
Definition close (conn : connection) : db := durable conn.

(** ** Database setup *)

Definition init_db (file : db) : db :=
  let conn := connect file in
  let conn := execute (Sql.insert_or_ignore_user "admin" (make_hashes "admin123")) conn in
  let conn := commit conn in
  close conn.

(** ** Authentication *)

Definition create_user (file : db) (username password : string) : outcome bool * db :=
  let conn := connect file in
  match Sql.insert_user username (make_hashes password) (working conn) with
  | inr inserted =>
      let conn := commit (Connection (durable conn) inserted) in
      (Returns true, close conn)
  | inl IntegrityError => (Returns false, close conn)
  | inl err => (Raises err, close conn)
  end.

(** [return data and check_hashes(password, data[1])] *)
Definition login_user (file : db) (username password : string) : pyval :=
  let conn := connect file in
  let data := Sql.select_user username (working conn) in
  match data with
  | None => PyNone
  | Some row => PyBool (check_hashes password row.2)
  end.

(** ** Inventory functions

    The functions of this and the next section give what the statements
    of each function do to the tables once the parameters are bound, for
    INTEGER values that stay within 64 bits and REAL values that are read
    back as they were bound; [Call], below, gives the calls themselves. *)

Definition get_inventory (file : db) : list Inventory.row :=
  Sql.select_inventory (working (connect file)).

Definition add_item (file : db) (item category : string) (quantity : Z) (price : float)
    (min_stock : Z) : pyval * db :=
  let conn := connect file in
  let conn := execute (Sql.insert_inventory item category quantity price min_stock) conn in
  let conn := commit conn in
  (PyNone, close conn).

Definition update_item (file : db) (item_id : Z) (item category : string) (quantity : Z)
    (price : float) (min_stock : Z) : pyval * db :=
  let conn := connect file in
  let conn :=
    execute (Sql.update_inventory item category quantity price min_stock item_id) conn in
  let conn := commit conn in
  (PyNone, close conn).

Definition delete_item (file : db) (item_id : Z) : pyval * db :=
  let conn := connect file in
  let conn := execute (Sql.delete_inventory item_id) conn in
  let conn := commit conn in
  (PyNone, close conn).

(** ** Sales functions *)

(** [now] is what [datetime.now()] reads from the clock during the call. *)
Definition record_sale (file : db) (now : datetime) (item_id quantity : Z)
    (sale_price : float) : pyval * db :=
  let conn := connect file in
  let conn := execute (Sql.decrement_quantity quantity item_id) conn in
  let sale_date := strftime now in
  let conn := execute (Sql.insert_sale item_id quantity sale_price sale_date) conn in
  let conn := commit conn in
  (PyNone, close conn).

Definition get_sales (file : db) : list SaleView.row :=
  Sql.select_sales_join (working (connect file)).

(** ** Low-stock view of [main_app]

    [low_stock = inventory[inventory['quantity'] < inventory['min_stock']]] *)
Definition low_stock (inventory : list Inventory.row) : list Inventory.row :=
  filter (fun r => Inventory.quantity r < Inventory.min_stock r) inventory.

(** The test [if login_user(username, password)] of [auth_page]. *)
Definition login (file : db) (username password : string) : bool :=
  truthy (login_user file username password).

(** The primary keys of the two AUTOINCREMENT tables: no two rows of a
    table share an id. *)
Definition primary_keys (d : db) : Prop :=
  NoDup (Inventory.id <$> inventory d) ∧ NoDup (Sales.id <$> sales d).

(** ** Calls as Python runs them

    Before a statement runs, the sqlite3 module binds its parameters: a
    Python [int] as an INTEGER, with [OverflowError] outside the 64-bit
    range; a [numpy.int64], through the buffer protocol, as a BLOB; a
    [float] as a REAL. SQLite reads a REAL [-0.0] back as [0.0] and keeps
    a NaN as NULL; an INTEGER subtraction that leaves the 64-bit range
    gives a REAL; an AUTOINCREMENT table whose largest id is the largest
    64-bit integer takes no further row. *)

Definition int64 (n : Z) : Prop := -9223372036854775808 ≤ n ≤ 9223372036854775807.

#[global] Instance int64_dec (n : Z) : Decision (int64 n).
Proof. unfold int64. apply _. Defined.

(** The exceptions that escape the data layer. *)
Inductive exception := OverflowError | Sqlite3Error (err : sqlite3_error).

(** A parameter that names a row: a Python [int], or the [numpy.int64]
    that indexing a DataFrame column gives. *)
Inductive py_int := PyInt (n : Z) | NumpyInt64 (n : Z).

(** The value bound for it. A BLOB equals no INTEGER, whatever its
    bytes. *)
Inductive bound := SqlInteger (n : Z) | SqlBlob.

Definition bind_parameter (x : py_int) : exception + bound :=
  match x with
  | PyInt n => if decide (int64 n) then inr (SqlInteger n) else inl OverflowError
  | NumpyInt64 _ => inr SqlBlob
  end.

(** The REAL read back for a bound [float] that is not a NaN. *)
Definition stored_real (x : float) : float :=
  if PrimFloat.is_zero x then 0%float else x.

(** What a call does: it returns a value and leaves a file; it raises
    and leaves a file; or it stores a value that the tables of [db] do
    not represent, which is a REAL in the quantity column, a NULL price
    or a BLOB item_id. *)
Inductive effect :=
| Returned (v : pyval) (file' : db)
| Raised (exc : exception) (file' : db)
| Unrepresented.

Definition returned (result : pyval * db) : effect := Returned result.1 result.2.

Module Call.

Definition add_item (file : db) (item category : string) (quantity : Z) (price : float)
    (min_stock : Z) : effect :=
  if decide (int64 quantity ∧ int64 min_stock) then
    if decide (int64 (Sql.next_rowid (inventory_seq file) (Inventory.id <$> inventory file)))
    then if PrimFloat.is_nan price then Unrepresented
         else returned (add_item file item category quantity (stored_real price) min_stock)
    else Raised (Sqlite3Error OperationalError) file
  else Raised OverflowError file.

Definition update_item (file : db) (item_id : py_int) (item category : string)
    (quantity : Z) (price : float) (min_stock : Z) : effect :=
  if decide (int64 quantity ∧ int64 min_stock) then
    match bind_parameter item_id with
    | inl exc => Raised exc file
    | inr SqlBlob => Returned PyNone file
    | inr (SqlInteger n) =>
        if PrimFloat.is_nan price && bool_decide (n ∈ Inventory.id <$> inventory file)
        then Unrepresented
        else returned (update_item file n item category quantity (stored_real price)
                         min_stock)
    end
  else Raised OverflowError file.

Definition delete_item (file : db) (item_id : py_int) : effect :=
  match bind_parameter item_id with
  | inl exc => Raised exc file
  | inr SqlBlob => Returned PyNone file
  | inr (SqlInteger n) => returned (delete_item file n)
  end.

(** An exception between the UPDATE and the commit leaves the file as it
    was: the connection is dropped with its changes. *)
Definition record_sale (file : db) (now : datetime) (item_id : py_int) (quantity : Z)
    (sale_price : float) : effect :=
  if decide (int64 quantity) then
    match bind_parameter item_id with
    | inl exc => Raised exc file
    | inr target =>
        if decide (int64 (Sql.next_rowid (sales_seq file) (Sales.id <$> sales file)))
        then match target with
             | SqlBlob => Unrepresented
             | SqlInteger n =>
                 if decide (Forall (fun r => Inventory.id r = n →
                                             int64 (Inventory.quantity r - quantity))
                              (inventory file))
                 then if PrimFloat.is_nan sale_price then Unrepresented
                      else returned (record_sale file now n quantity
                                       (stored_real sale_price))
                 else Unrepresented
             end
        else Raised (Sqlite3Error OperationalError) file
    end
  else Raised OverflowError file.

End Call.

(** ** The forms of [auth_page] *)

(** [st.session_state]: [logged_in] and [show_signup] start as [False];
    the [username] key is absent until a login sets it. *)
Module Session.
Record state := State {
  logged_in : bool; username : option string; show_signup : bool }.
End Session.

(** What a form shows after a submit: [st.success] or [st.error]. *)
Inductive notice := st_success (text : string) | st_error (text : string).

(** [len(s)] counts code points: every byte of the UTF-8 text except the
    continuation bytes [10xxxxxx]. *)
Definition is_continuation (c : ascii) : bool :=
  Z.land (Z.of_N (N_of_ascii c)) 192 =? 128.

Fixpoint py_len (s : string) : nat :=
  match s with
  | EmptyString => 0%nat
  | String c rest => ((if is_continuation c then 0 else 1) + py_len rest)%nat
  end.

(** The submit branch of [login_form]. *)
Definition login_form_submit (file : db) (state : Session.state)
    (username password : string) : notice * Session.state :=
  if truthy (login_user file username password)
  then (st_success "Login successful!",
        Session.State true (Some username) (Session.show_signup state))
  else (st_error "Invalid username or password", state).

(** The submit branch of [signup_form]. *)
Definition signup_form_submit (file : db) (state : Session.state)
    (new_username new_password confirm_password : string)
    : outcome (notice * Session.state) * db :=
  if negb (String.eqb new_password confirm_password)
  then (Returns (st_error "Passwords don't match!", state), file)
  else if (py_len new_password <? 8)%nat
  then (Returns (st_error "Password must be at least 8 characters", state), file)
  else match create_user file new_username new_password with
       | (Returns true, file') =>
           (Returns (st_success "Account created! Please login.",
                     Session.State (Session.logged_in state) (Session.username state) false),
            file')
       | (Returns false, file') => (Returns (st_error "Username already exists", state), file')
       | (Raises err, file') => (Raises err, file')
       end.

(** ** The forms of [main_app] *)

(** The submit branch of [add_form]; [if item:] is true of every string
    but the empty one. *)
Definition add_form_submit (file : db) (item category : string) (quantity : Z)
    (price : float) (min_stock : Z) : notice * db :=
  if negb (String.eqb item EmptyString)
  then (st_success "Item added!", (add_item file item category quantity price min_stock).2)
  else (st_error "Item name required", file).

(** [inventory[inventory['item'] == name].iloc[0]]: the first row with
    that name; [None] stands for the IndexError of an empty selection. *)
Definition first_named (inventory : list Inventory.row) (name : string)
    : option Inventory.row :=
  head (filter (fun r => Inventory.item r = name) inventory).

(** The options of the category box of [add_form]. *)
Definition add_categories : list string :=
  ["protein"; "perishables ()"; "juice(per bottle)"; "spices (in grams)"; "Other"].

(** The options of the category box of [edit_form]. *)
Definition categories : list string :=
  ["protein(kg)"; "perishables(kg)"; "juice(bottle)"; "groceries (kg)"; "Other"].

(** [l.index(x)]; [None] stands for the ValueError of a missing value. *)
Fixpoint list_index (x : string) (l : list string) : option nat :=
  match l with
  | [] => None
  | y :: rest => if decide (y = x) then Some 0%nat else S <$> list_index x rest
  end.

(** [categories.index(current_category) if current_category in categories
    else 4] *)
Definition default_index (current_category : string) : nat :=
  match list_index current_category categories with
  | Some k => k
  | None => 4%nat
  end.



(** ** Runs of the script *)

(** The calls into the data layer that change the file. *)
Inductive request :=
| CreateUser (username password : string)
| AddItem (item category : string) (quantity : Z) (price : float) (min_stock : Z)
| UpdateItem (item_id : Z) (item category : string) (quantity : Z) (price : float)
    (min_stock : Z)
| DeleteItem (item_id : Z)
| RecordSale (now : datetime) (item_id quantity : Z) (sale_price : float).

Definition submit (file : db) (req : request) : db :=
  match req with
  | CreateUser username password => (create_user file username password).2
  | AddItem item category quantity price min_stock =>
      (add_item file item category quantity price min_stock).2
  | UpdateItem item_id item category quantity price min_stock =>
      (update_item file item_id item category quantity price min_stock).2
  | DeleteItem item_id => (delete_item file item_id).2
  | RecordSale now item_id quantity sale_price =>
      (record_sale file now item_id quantity sale_price).2
  end.

(** One run of the script: [init_db()] at the top, then the call the
    submitted form makes. *)
Definition handle (file : db) (req : request) : db := submit (init_db file) req.

(** The file after a history of runs on a new database. *)
Definition replay (history : list request) : db :=
  foldl handle (init_db empty_db) history.

(** Rows are listed by increasing id, and no id exceeds the table's
    AUTOINCREMENT counter. *)
Definition well_formed (d : db) : Prop :=
  StronglySorted Z.lt (Inventory.id <$> inventory d) ∧
  Forall (fun r => 0 < Inventory.id r ≤ inventory_seq d) (inventory d) ∧
  StronglySorted Z.lt (Sales.id <$> sales d) ∧
  Forall (fun s => 0 < Sales.id s ≤ sales_seq d) (sales d).

(** Units on record as sold of the item [item_id]. *)
Definition units_sold (item_id : Z) (sales : list Sales.row) : Z :=
  foldr Z.add 0 (Sales.quantity <$> filter (fun s => Sales.item_id s = item_id) sales).

(** Units in stock under the id [item_id]. *)
Definition stock_on_hand (item_id : Z) (inventory : list Inventory.row) : Z :=
  foldr Z.add 0
    (Inventory.quantity <$> filter (fun r => Inventory.id r = item_id) inventory).

(** ** Sample data *)

Definition noon : datetime := Datetime 2024 3 9 12 0 0 250000.

(** A new database with one item in stock. *)
Definition shop : db :=
  (add_item (init_db empty_db) "Rice" "groceries" 10 500%float 5).2.

(** The same shop after its only item was deleted with a sale on record. *)
Definition shop_orphaned : db :=
  (delete_item (record_sale shop noon 1 3 480%float).2 1).2.

(** A shop with two items and a sale of each, after the second item was
    deleted: its sale is left behind with a dangling item_id. *)
Definition market : db :=
  let file := shop in
  let file := (add_item file "Beans" "groceries" 8 300%float 5).2 in
  let file := (record_sale file noon 1 3 480%float).2 in
  let file := (record_sale file noon 2 2 310%float).2 in
  (delete_item file 2).2.

(** * Properties *)

(** ** The digest *)

Example make_hashes_abc :
  make_hashes "abc" = "ba7816bf8f01cfea414140de5dae2223b00361a396177a9cb410ff61f20015ad".
Proof. vm_compute. reflexivity. Qed.

Example make_hashes_admin123 :
  make_hashes "admin123" = "240be518fabd2724ddb6f04eeb1da5967448d7e831c08c8fa822809f74c720a9".
Proof. vm_compute. reflexivity. Qed.

Example strftime_noon : strftime noon = "2024-03-09 12:00:00".
Proof. reflexivity. Qed.

Example init_db_seeds_admin :
  users (init_db empty_db) !! "admin" = Some (make_hashes "admin123").
Proof. reflexivity. Qed.

Example shop_inventory :
  get_inventory shop = [Inventory.Row 1 "Rice" "groceries" 10 500%float 5].
Proof. reflexivity. Qed.

(** ** Connections *)

Lemma close_unchanged (file : db) : close (connect file) = file.
Proof. reflexivity. Qed.

Lemma close_committed (statement : db -> db) (file : db) :
  close (commit (execute statement (connect file))) = statement file.
Proof. reflexivity. Qed.

(** ** Authentication *)

Lemma check_hashes_spec (password hashed_text : string) :
  check_hashes password hashed_text = true ↔ make_hashes password = hashed_text.
Proof. unfold check_hashes. apply String.eqb_eq. Qed.

Lemma check_hashes_own_digest (password : string) :
  check_hashes password (make_hashes password) = true.
Proof. by apply check_hashes_spec. Qed.

Lemma insert_user_taken (username password stored : string) (d : db) :
  users d !! username = Some stored →
  Sql.insert_user username password d = inl IntegrityError.
Proof. intros Hrow. unfold Sql.insert_user. by rewrite Hrow. Qed.

Lemma insert_user_free (username password : string) (d : db) :
  users d !! username = None →
  Sql.insert_user username password d
  = inr (set_users (<[username := password]> (users d)) d).
Proof. intros Hfree. unfold Sql.insert_user. by rewrite Hfree. Qed.

Lemma create_user_taken (file : db) (username password : string) :
  is_Some (users file !! username) →
  create_user file username password = (Returns false, file).
Proof.
  intros [stored Hrow]. unfold create_user. cbn [connect working durable].
  by rewrite (insert_user_taken _ _ stored).
Qed.

Lemma create_user_free (file : db) (username password : string) :
  users file !! username = None →
  create_user file username password
  = (Returns true, set_users (<[username := make_hashes password]> (users file)) file).
Proof.
  intros Hfree. unfold create_user. cbn [connect working durable].
  by rewrite insert_user_free.
Qed.

Lemma login_user_row (file : db) (username password stored : string) :
  users file !! username = Some stored →
  login_user file username password = PyBool (check_hashes password stored).
Proof.
  intros Hrow. unfold login_user, Sql.select_user. cbn [connect working].
  by rewrite Hrow.
Qed.

Lemma login_user_absent (file : db) (username password : string) :
  users file !! username = None →
  login_user file username password = PyNone.
Proof.
  intros Hfree. unfold login_user, Sql.select_user. cbn [connect working].
  by rewrite Hfree.
Qed.

(** C2: [create_user] on a username that is already in the users table
    returns [False], the outcome reserved for the caught
    [sqlite3.IntegrityError], and leaves the database as it was; on a
    username that is not there it returns [True] and the table gains the
    username with the digest of the password. [False] is returned in no
    other case, and no exception escapes. *)
Theorem create_user_conflict_or_persist (file : db) (username password : string) :
  (is_Some (users file !! username) →
     create_user file username password = (Returns false, file)) ∧
  (users file !! username = None →
     create_user file username password
     = (Returns true, set_users (<[username := make_hashes password]> (users file)) file)
     ∧ users (create_user file username password).2 !! username
       = Some (make_hashes password)) ∧
  ((create_user file username password).1 = Returns false
     ↔ is_Some (users file !! username)) ∧
  (∀ err, (create_user file username password).1 ≠ Raises err).
Proof.
  split_and!.
  - apply create_user_taken.
  - intros Hfree. rewrite create_user_free by done. split; [done|].
    cbn. apply lookup_insert_eq.
  - destruct (users file !! username) as [stored|] eqn:Hrow.
    + rewrite create_user_taken by (by rewrite Hrow). cbn. naive_solver.
    + rewrite create_user_free by done. cbn. split; [done|].
      intros [? ?]; done.
  - intros err. destruct (users file !! username) as [stored|] eqn:Hrow.
    + by rewrite create_user_taken by (by rewrite Hrow).
    + by rewrite create_user_free by done.
Qed.

Lemma create_user_conflict_or_persist_witness :
  create_user shop "admin" "hunter22" = (Returns false, shop) ∧
  users (create_user shop "bola" "hunter22").2 !! "bola" = Some (make_hashes "hunter22").
Proof.
  destruct (create_user_conflict_or_persist shop "admin" "hunter22") as (Htaken & _).
  destruct (create_user_conflict_or_persist shop "bola" "hunter22") as (_ & Hfree & _).
  split.
  - apply Htaken. by eexists.
  - apply Hfree. reflexivity.
Defined.

(** C3: for a username with no row in the users table, [create_user]
    returns [True], and [login_user] with the same username and password
    on the resulting database returns [True]. *)
Theorem create_user_then_login (file : db) (username password : string) :
  users file !! username = None →
  (create_user file username password).1 = Returns true ∧
  login_user (create_user file username password).2 username password = PyBool true ∧
  login (create_user file username password).2 username password = true.
Proof.
  intros Hfree. rewrite create_user_free by done. cbn [fst snd].
  assert (login_user
            (set_users (<[username := make_hashes password]> (users file)) file)
            username password = PyBool true) as Hlogin.
  { rewrite (login_user_row _ _ _ (make_hashes password)).
    - by rewrite check_hashes_own_digest.
    - cbn. apply lookup_insert_eq. }
  unfold login. by rewrite Hlogin.
Qed.

Lemma create_user_then_login_witness :
  (create_user shop "bola" "hunter22").1 = Returns true ∧
  login_user (create_user shop "bola" "hunter22").2 "bola" "hunter22" = PyBool true ∧
  login (create_user shop "bola" "hunter22").2 "bola" "hunter22" = true.
Proof. apply (create_user_then_login shop "bola" "hunter22"). reflexivity. Defined.

(** C4: [login_user] gives a false result when the username has no row
    (the value is [None], which [auth_page] tests as false); for a stored
    row it returns [False] for every password whose SHA-256 digest differs
    from the stored one; [check_hashes] recomputes the digest of the
    supplied password and compares it with the stored text for equality. *)
Theorem login_user_rejects (file : db) (username password : string) :
  (users file !! username = None →
     login_user file username password = PyNone
     ∧ login file username password = false) ∧
  (∀ stored, users file !! username = Some stored →
     make_hashes password ≠ stored →
     login_user file username password = PyBool false
     ∧ login file username password = false) ∧
  (∀ stored, users file !! username = Some stored →
     login_user file username password
     = PyBool (String.eqb (make_hashes password) stored)) ∧
  (∀ hashed_text, check_hashes password hashed_text = true
     ↔ make_hashes password = hashed_text).
Proof.
  split_and!.
  - intros Hfree. unfold login. by rewrite login_user_absent.
  - intros stored Hrow Hdiff. unfold login. rewrite (login_user_row _ _ _ stored) by done.
    destruct (check_hashes password stored) eqn:Hcheck; [|done].
    by apply check_hashes_spec in Hcheck.
  - intros stored Hrow. by rewrite (login_user_row _ _ _ stored).
  - apply check_hashes_spec.
Qed.

Lemma login_user_rejects_witness :
  (login_user shop "nobody" "admin123" = PyNone ∧ login shop "nobody" "admin123" = false) ∧
  (login_user shop "admin" "admin124" = PyBool false ∧ login shop "admin" "admin124" = false).
Proof.
  destruct (login_user_rejects shop "nobody" "admin123") as (Habsent & _).
  destruct (login_user_rejects shop "admin" "admin124") as (_ & Hwrong & _).
  split.
  - apply Habsent. reflexivity.
  - apply (Hwrong (make_hashes "admin123")).
    + reflexivity.
    + vm_compute. discriminate.
Defined.

(** ** The low-stock view *)

(** C5: a row is in the low-stock view exactly when it is in the
    fetched inventory and its quantity is strictly below its min_stock; a
    row with quantity equal to min_stock is left out; the view is computed
    from the list alone and keeps its rows in their order. *)
Theorem low_stock_strictly_below (inventory : list Inventory.row) :
  (∀ r, r ∈ low_stock inventory
        ↔ r ∈ inventory ∧ Inventory.quantity r < Inventory.min_stock r) ∧
  (∀ r, Inventory.quantity r = Inventory.min_stock r → r ∉ low_stock inventory) ∧
  low_stock inventory `sublist_of` inventory.
Proof.
  unfold low_stock. split_and!.
  - intros r. rewrite list_elem_of_filter. tauto.
  - intros r Hboundary Hin. apply list_elem_of_filter in Hin as [Hlow _]. lia.
  - apply sublist_filter.
Qed.

Example low_stock_boundary :
  low_stock [Inventory.Row 1 "Rice" "groceries" 4 500%float 5;
             Inventory.Row 2 "Beans" "groceries" 5 300%float 5;
             Inventory.Row 3 "Yam" "perishables" 6 900%float 5]
  = [Inventory.Row 1 "Rice" "groceries" 4 500%float 5].
Proof. reflexivity. Qed.

(** ** Inventory rows *)

Section inventory_rows.
Implicit Types (rows : list Inventory.row) (r : Inventory.row) (item_id : Z).

Lemma filter_other_ids_absent rows item_id :
  (∀ r, r ∈ rows → Inventory.id r ≠ item_id) →
  filter (fun r => Inventory.id r ≠ item_id) rows = rows.
Proof.
  induction rows as [|r rows IH]; intros Habsent; [done|].
  rewrite filter_cons_True by (apply Habsent; left).
  f_equal. apply IH. intros r' Hin. apply Habsent. by right.
Qed.

Lemma fmap_matching_absent (change : Inventory.row → Inventory.row) rows item_id :
  (∀ r, r ∈ rows → Inventory.id r ≠ item_id) →
  (fun r => if decide (Inventory.id r = item_id) then change r else r) <$> rows = rows.
Proof.
  induction rows as [|r rows IH]; intros Habsent; [done|].
  cbn. rewrite decide_False by (apply Habsent; left).
  f_equal. apply IH. intros r' Hin. apply Habsent. by right.
Qed.

Lemma fmap_matching_ids (change : Inventory.row → Inventory.row) rows item_id :
  (∀ r, Inventory.id (change r) = Inventory.id r) →
  Inventory.id <$> ((fun r => if decide (Inventory.id r = item_id) then change r else r)
                      <$> rows)
  = Inventory.id <$> rows.
Proof.
  intros Hkeeps. rewrite <- list_fmap_compose. apply list_fmap_ext.
  intros k r _. cbn. by case_decide.
Qed.

Lemma lookup_fmap_matching (change : Inventory.row → Inventory.row) rows item_id k r :
  rows !! k = Some r →
  ((fun r => if decide (Inventory.id r = item_id) then change r else r) <$> rows) !! k
  = Some (if decide (Inventory.id r = item_id) then change r else r).
Proof. intros Hrow. by rewrite list_lookup_fmap, Hrow. Qed.

End inventory_rows.

(** ** delete_item *)

Lemma delete_item_returns_none (file : db) (item_id : Z) :
  (delete_item file item_id).1 = PyNone.
Proof. reflexivity. Qed.

Lemma set_inventory_same (d : db) : set_inventory (inventory d) d = d.
Proof. by destruct d. Qed.

(** The DELETE of [delete_item] on an id that no inventory row carries
    removes nothing. *)
Lemma delete_item_in_range_absent (file : db) (item_id : Z) :
  (∀ r, r ∈ inventory file → Inventory.id r ≠ item_id) →
  delete_item file item_id = (PyNone, file) ∧
  get_inventory (delete_item file item_id).2 = get_inventory file ∧
  length (get_inventory (delete_item file item_id).2) = length (get_inventory file) ∧
  (∀ other, (delete_item file other).1 = (delete_item file item_id).1).
Proof.
  intros Habsent.
  assert (delete_item file item_id = (PyNone, file)) as Hsame.
  { unfold delete_item. rewrite close_committed. unfold Sql.delete_inventory.
    by rewrite filter_other_ids_absent, set_inventory_same. }
  rewrite Hsame. done.
Qed.

(** The outcomes the specification gives [deleteItem]. *)
Inductive delete_result := Deleted | NotFound.

(** C6 as stated fails: in [shop], id 1 is in the inventory and id 99 is
    not, and [delete_item] returns the same value for both, so no reading
    of its result tells NotFound from a successful delete. *)
Lemma delete_item_no_not_found :
  (∃ r, r ∈ inventory shop ∧ Inventory.id r = 1) ∧
  (∀ r, r ∈ inventory shop → Inventory.id r ≠ 99) ∧
  (delete_item shop 99).1 = PyNone ∧
  (delete_item shop 1).1 = PyNone ∧
  ¬ (∃ reading : pyval → delete_result,
       reading (delete_item shop 1).1 = Deleted ∧
       reading (delete_item shop 99).1 = NotFound).
Proof.
  split_and!.
  - eexists. split; [left|reflexivity].
  - intros r Hin. apply list_elem_of_singleton in Hin. subst r. vm_compute. discriminate.
  - reflexivity.
  - reflexivity.
  - intros (reading & Hdeleted & Hmissing). cbn in Hdeleted, Hmissing. congruence.
Qed.

(** ** update_item *)

(** What the UPDATE of [update_item] does to the row at position [k] and
    to the other rows. *)
Lemma update_item_in_range (file : db) (item_id : Z) (item category : string)
    (quantity : Z) (price : float) (min_stock : Z) (k : nat) (r : Inventory.row) :
  get_inventory file !! k = Some r →
  Inventory.id r = item_id →
  let file' := (update_item file item_id item category quantity price min_stock).2 in
  get_inventory file' !! k
    = Some (Inventory.Row item_id item category quantity price min_stock) ∧
  Inventory.id <$> get_inventory file' = Inventory.id <$> get_inventory file ∧
  (∀ j other, get_inventory file !! j = Some other → Inventory.id other ≠ item_id →
     get_inventory file' !! j = Some other) ∧
  (∀ changed, changed ∈ get_inventory file' → Inventory.id changed = item_id →
     changed = Inventory.Row item_id item category quantity price min_stock) ∧
  users file' = users file ∧ sales file' = sales file ∧
  inventory_seq file' = inventory_seq file ∧ sales_seq file' = sales_seq file.
Proof.
  intros Hrow Hid file'. subst file'.
  unfold update_item. rewrite close_committed. cbn [snd].
  unfold get_inventory, Sql.select_inventory, Sql.update_inventory in *.
  cbn [connect working set_inventory inventory users sales inventory_seq sales_seq] in *.
  split_and!; try done.
  - rewrite (lookup_fmap_matching _ _ _ _ r) by done.
    rewrite decide_True by done. by rewrite Hid.
  - by apply fmap_matching_ids.
  - intros j other Hother Hne.
    rewrite (lookup_fmap_matching _ _ _ _ other) by done.
    by rewrite decide_False.
  - intros changed Hin Hchanged.
    apply list_elem_of_fmap in Hin as (old & -> & _).
    case_decide as Hold; [by rewrite Hold|done].
Qed.

(** ** The sale timestamp *)

Lemma string_length_app (s1 s2 : string) :
  String.length (s1 +:+ s2) = (String.length s1 + String.length s2)%nat.
Proof. induction s1 as [|c s1 IH]; [done|]. simpl. by rewrite IH. Qed.

Lemma zero_pad_length (width : nat) (n : Z) :
  String.length (zero_pad width n) = width.
Proof.
  revert n. induction width as [|width IH]; intros n; [done|].
  cbn [zero_pad]. rewrite string_length_app, IH. simpl. lia.
Qed.

Lemma strftime_length (t : datetime) : String.length (strftime t) = 19%nat.
Proof.
  unfold strftime. repeat rewrite string_length_app.
  repeat rewrite zero_pad_length. reflexivity.
Qed.

Lemma strftime_second_resolution (t : datetime) :
  strftime t = strftime (truncate_to_second t).
Proof. reflexivity. Qed.

(** ** The join of sales and inventory *)

Section sale_rows.
Implicit Types (items : list Inventory.row) (i r : Inventory.row) (s : Sales.row).

Lemma sale_rows_cons i items s :
  Sql.sale_rows (i :: items) s
  = (if decide (Sales.item_id s = Inventory.id i) then [Sql.joined s i] else [])
    ++ Sql.sale_rows items s.
Proof. unfold Sql.sale_rows. rewrite filter_cons. by case_decide. Qed.

Lemma sale_rows_orphan items s :
  (∀ i, i ∈ items → Inventory.id i ≠ Sales.item_id s) →
  Sql.sale_rows items s = [].
Proof.
  induction items as [|i items IH]; intros Habsent; [done|].
  rewrite sale_rows_cons, decide_False.
  - apply IH. intros i' Hin. apply Habsent. by right.
  - intros Heq. by apply (Habsent i); [left|].
Qed.

Lemma sale_rows_unique items r s :
  NoDup (Inventory.id <$> items) →
  r ∈ items →
  Sales.item_id s = Inventory.id r →
  Sql.sale_rows items s = [Sql.joined s r].
Proof.
  induction items as [|i items IH]; intros Hkeys Hin Hid.
  - by apply elem_of_nil in Hin.
  - rewrite fmap_cons in Hkeys. apply NoDup_cons in Hkeys as [Hfresh Hkeys].
    rewrite sale_rows_cons. apply elem_of_cons in Hin as [<-|Hin].
    + rewrite decide_True by done. cbn. f_equal.
      apply sale_rows_orphan. intros i Hi Heq. apply Hfresh.
      rewrite <- Hid, <- Heq. by apply list_elem_of_fmap_2.
    + rewrite decide_False; [by apply IH|].
      intros Heq. apply Hfresh. rewrite <- Heq, Hid. by apply list_elem_of_fmap_2.
Qed.

Lemma sale_rows_elem_of items s v :
  v ∈ Sql.sale_rows items s
  ↔ ∃ i, i ∈ items ∧ Sales.item_id s = Inventory.id i ∧ v = Sql.joined s i.
Proof.
  unfold Sql.sale_rows. rewrite list_elem_of_fmap. split.
  - intros (i & -> & Hi). apply list_elem_of_filter in Hi as [Hid Hin]. by exists i.
  - intros (i & Hin & Hid & ->). exists i. split; [done|].
    by apply list_elem_of_filter.
Qed.

(** An UPDATE that keeps the id and the name of every row leaves the
    joined rows as they were. *)
Lemma sale_rows_fmap (change : Inventory.row → Inventory.row) items s :
  (∀ i, Inventory.id (change i) = Inventory.id i) →
  (∀ i, Inventory.item (change i) = Inventory.item i) →
  Sql.sale_rows (change <$> items) s = Sql.sale_rows items s.
Proof.
  intros Hkeeps_id Hkeeps_item.
  induction items as [|i items IH]; [done|].
  rewrite fmap_cons, !sale_rows_cons, IH, Hkeeps_id.
  case_decide; [|done]. unfold Sql.joined. by rewrite Hkeeps_item.
Qed.

Lemma sale_rows_length items s :
  NoDup (Inventory.id <$> items) →
  length (Sql.sale_rows items s)
  = (if decide (Sales.item_id s ∈ Inventory.id <$> items) then 1 else 0)%nat.
Proof.
  intros Hkeys. case_decide as Hknown.
  - apply list_elem_of_fmap in Hknown as (i & Hid & Hin).
    by rewrite (sale_rows_unique items i s).
  - rewrite sale_rows_orphan; [done|].
    intros i Hin Heq. apply Hknown. rewrite <- Heq. by apply list_elem_of_fmap_2.
Qed.

End sale_rows.

Lemma get_sales_unfold (file : db) :
  get_sales file = sales file ≫= Sql.sale_rows (inventory file).
Proof. reflexivity. Qed.

Lemma get_sales_length (file : db) :
  NoDup (Inventory.id <$> inventory file) →
  length (get_sales file)
  = length (filter (fun s => Sales.item_id s ∈ Inventory.id <$> inventory file)
              (sales file)).
Proof.
  intros Hkeys. rewrite get_sales_unfold.
  induction (sales file) as [|s rest IH]; [done|].
  rewrite bind_cons, length_app, IH, sale_rows_length, filter_cons by done.
  by case_decide.
Qed.

Lemma delete_item_inventory (file : db) (item_id : Z) :
  inventory (delete_item file item_id).2
  = filter (fun r => Inventory.id r ≠ item_id) (inventory file).
Proof. reflexivity. Qed.

(** C8: [get_sales] is the inner join of sales and inventory on
    [s.item_id = i.id]. With the ids of the inventory unique (they are its
    primary key), a sale whose item_id is the id of an inventory row gives
    exactly one row, made of the sale's id, that item's name and the
    sale's quantity, price and date; a sale whose item_id matches no
    inventory row gives none, in particular every sale of an item that
    [delete_item] has removed. *)
Theorem get_sales_inner_join (file : db) :
  NoDup (Inventory.id <$> inventory file) →
  get_sales file = sales file ≫= Sql.sale_rows (inventory file) ∧
  (∀ s i, i ∈ inventory file → Sales.item_id s = Inventory.id i →
     Sql.sale_rows (inventory file) s
     = [SaleView.Row (Sales.id s) (Inventory.item i) (Sales.quantity s)
          (Sales.sale_price s) (Sales.sale_date s)]) ∧
  (∀ s, (∀ i, i ∈ inventory file → Inventory.id i ≠ Sales.item_id s) →
     Sql.sale_rows (inventory file) s = []) ∧
  (∀ v, v ∈ get_sales file
        ↔ ∃ s i, s ∈ sales file ∧ i ∈ inventory file ∧
            Sales.item_id s = Inventory.id i ∧
            v = SaleView.Row (Sales.id s) (Inventory.item i) (Sales.quantity s)
                  (Sales.sale_price s) (Sales.sale_date s)) ∧
  length (get_sales file)
  = length (filter (fun s => Sales.item_id s ∈ Inventory.id <$> inventory file)
              (sales file)) ∧
  (∀ item_id s, Sales.item_id s = item_id →
     Sql.sale_rows (inventory (delete_item file item_id).2) s = []).
Proof.
  intros Hkeys. split_and!.
  - reflexivity.
  - intros s i Hin Hid. by apply sale_rows_unique.
  - intros s. apply sale_rows_orphan.
  - intros v. rewrite get_sales_unfold, list_elem_of_bind. split.
    + intros (s & Hv & Hs). apply sale_rows_elem_of in Hv as (i & Hi & Hid & ->).
      by exists s, i.
    + intros (s & i & Hs & Hi & Hid & ->). exists s. split; [|done].
      apply sale_rows_elem_of. by exists i.
  - by apply get_sales_length.
  - intros item_id s Hid. rewrite delete_item_inventory.
    apply sale_rows_orphan. intros i Hi Heq.
    apply list_elem_of_filter in Hi as [Hkept _]. congruence.
Qed.

Example market_tables :
  inventory market = [Inventory.Row 1 "Rice" "groceries" 7 500%float 5] ∧
  sales market = [Sales.Row 1 1 3 480%float "2024-03-09 12:00:00";
                  Sales.Row 2 2 2 310%float "2024-03-09 12:00:00"] ∧
  get_sales market = [SaleView.Row 1 "Rice" 3 480%float "2024-03-09 12:00:00"].
Proof. split_and!; reflexivity. Qed.

Lemma get_sales_inner_join_witness :
  get_sales market = sales market ≫= Sql.sale_rows (inventory market) ∧
  (∀ s i, i ∈ inventory market → Sales.item_id s = Inventory.id i →
     Sql.sale_rows (inventory market) s
     = [SaleView.Row (Sales.id s) (Inventory.item i) (Sales.quantity s)
          (Sales.sale_price s) (Sales.sale_date s)]) ∧
  (∀ s, (∀ i, i ∈ inventory market → Inventory.id i ≠ Sales.item_id s) →
     Sql.sale_rows (inventory market) s = []) ∧
  (∀ v, v ∈ get_sales market
        ↔ ∃ s i, s ∈ sales market ∧ i ∈ inventory market ∧
            Sales.item_id s = Inventory.id i ∧
            v = SaleView.Row (Sales.id s) (Inventory.item i) (Sales.quantity s)
                  (Sales.sale_price s) (Sales.sale_date s)) ∧
  length (get_sales market)
  = length (filter (fun s => Sales.item_id s ∈ Inventory.id <$> inventory market)
              (sales market)) ∧
  (∀ item_id s, Sales.item_id s = item_id →
     Sql.sale_rows (inventory (delete_item market item_id).2) s = []).
Proof. apply (get_sales_inner_join market). apply NoDup_singleton. Defined.

(** ** record_sale *)

Lemma record_sale_unfold (file : db) (now : datetime) (item_id quantity : Z)
    (sale_price : float) :
  record_sale file now item_id quantity sale_price
  = (PyNone,
     Sql.insert_sale item_id quantity sale_price (strftime now)
       (Sql.decrement_quantity quantity item_id file)).
Proof. reflexivity. Qed.

Lemma record_sale_inventory (file : db) (now : datetime) (item_id quantity : Z)
    (sale_price : float) :
  inventory (record_sale file now item_id quantity sale_price).2
  = (fun r => if decide (Inventory.id r = item_id)
              then with_quantity (Inventory.quantity r - quantity) r
              else r) <$> inventory file.
Proof. reflexivity. Qed.

Lemma record_sale_sales (file : db) (now : datetime) (item_id quantity : Z)
    (sale_price : float) :
  sales (record_sale file now item_id quantity sale_price).2
  = sales file
    ++ [Sales.Row (Sql.next_rowid (sales_seq file) (Sales.id <$> sales file))
          item_id quantity sale_price (strftime now)].
Proof. reflexivity. Qed.

Lemma record_sale_lookup (file : db) (now : datetime) (item_id quantity : Z)
    (sale_price : float) (k : nat) (r : Inventory.row) :
  inventory file !! k = Some r →
  inventory (record_sale file now item_id quantity sale_price).2 !! k
  = Some (if decide (Inventory.id r = item_id)
          then with_quantity (Inventory.quantity r - quantity) r
          else r).
Proof.
  intros Hrow. rewrite record_sale_inventory.
  by apply (lookup_fmap_matching
              (fun r => with_quantity (Inventory.quantity r - quantity) r)).
Qed.

Lemma decremented_sale_rows (items : list Inventory.row) (item_id quantity : Z)
    (s : Sales.row) :
  Sql.sale_rows
    ((fun r => if decide (Inventory.id r = item_id)
               then with_quantity (Inventory.quantity r - quantity) r
               else r) <$> items) s
  = Sql.sale_rows items s.
Proof. apply sale_rows_fmap; intros i; by case_decide. Qed.

(** What the two statements of [record_sale] do on the id of the row at
    position [k]. *)
Lemma record_sale_in_range (file : db) (now : datetime)
    (item_id quantity : Z) (sale_price : float) (k : nat) (r : Inventory.row) :
  NoDup (Inventory.id <$> inventory file) →
  inventory file !! k = Some r →
  Inventory.id r = item_id →
  let file' := (record_sale file now item_id quantity sale_price).2 in
  let sale_id := Sql.next_rowid (sales_seq file) (Sales.id <$> sales file) in
  (record_sale file now item_id quantity sale_price).1 = PyNone ∧
  inventory file' !! k = Some (with_quantity (Inventory.quantity r - quantity) r) ∧
  (∀ j other, inventory file !! j = Some other → Inventory.id other ≠ item_id →
     inventory file' !! j = Some other) ∧
  sales file'
  = sales file ++ [Sales.Row sale_id item_id quantity sale_price (strftime now)] ∧
  strftime now = strftime (truncate_to_second now) ∧
  String.length (strftime now) = 19%nat ∧
  get_sales file'
  = get_sales file
    ++ [SaleView.Row sale_id (Inventory.item r) quantity sale_price (strftime now)] ∧
  users file' = users file.
Proof.
  intros Hkeys Hrow Hid file' sale_id. subst file' sale_id. split_and!.
  - reflexivity.
  - rewrite (record_sale_lookup _ _ _ _ _ _ r) by done. by rewrite decide_True.
  - intros j other Hother Hne.
    rewrite (record_sale_lookup _ _ _ _ _ _ other) by done. by rewrite decide_False.
  - apply record_sale_sales.
  - reflexivity.
  - apply strftime_length.
  - rewrite !get_sales_unfold, record_sale_sales, record_sale_inventory, bind_app.
    f_equal.
    + induction (sales file) as [|s rest IH]; [done|].
      by rewrite !bind_cons, decremented_sale_rows, IH.
    + rewrite bind_singleton, decremented_sale_rows.
      rewrite (sale_rows_unique _ r); [done|done| |by cbn].
      by apply list_elem_of_lookup_2 with k.
  - reflexivity.
Qed.

(** The UPDATE of [record_sale] subtracts without a guard. *)
Lemma record_sale_in_range_oversell (file : db) (now : datetime) (item_id quantity : Z)
    (sale_price : float) (k : nat) (r : Inventory.row) :
  inventory file !! k = Some r →
  Inventory.id r = item_id →
  Inventory.quantity r < quantity →
  (record_sale file now item_id quantity sale_price).1 = PyNone ∧
  ∃ r', inventory (record_sale file now item_id quantity sale_price).2 !! k = Some r' ∧
        Inventory.id r' = item_id ∧
        Inventory.quantity r' = Inventory.quantity r - quantity ∧
        Inventory.quantity r' < 0.
Proof.
  intros Hrow Hid Hover. split; [reflexivity|].
  exists (with_quantity (Inventory.quantity r - quantity) r). split_and!.
  - rewrite (record_sale_lookup _ _ _ _ _ _ r) by done. by rewrite decide_True.
  - done.
  - reflexivity.
  - cbn. lia.
Qed.

Example record_sale_oversell_shop :
  get_inventory (record_sale shop noon 1 12 480%float).2
  = [Inventory.Row 1 "Rice" "groceries" (-2) 500%float 5].
Proof. reflexivity. Qed.

(** The statements of [record_sale] on an id that no inventory row
    carries. *)
Lemma record_sale_in_range_dangling (file : db) (now : datetime) (item_id quantity : Z)
    (sale_price : float) :
  (∀ r, r ∈ inventory file → Inventory.id r ≠ item_id) →
  let file' := (record_sale file now item_id quantity sale_price).2 in
  let sale_id := Sql.next_rowid (sales_seq file) (Sales.id <$> sales file) in
  (record_sale file now item_id quantity sale_price).1 = PyNone ∧
  sales file'
  = sales file ++ [Sales.Row sale_id item_id quantity sale_price (strftime now)] ∧
  inventory file' = inventory file ∧
  get_inventory file' = get_inventory file ∧
  inventory_seq file' = inventory_seq file ∧
  users file' = users file ∧
  (∀ r, r ∈ inventory file' → Inventory.id r ≠ item_id).
Proof.
  intros Habsent file' sale_id. subst file' sale_id.
  assert (inventory (record_sale file now item_id quantity sale_price).2
          = inventory file) as Hsame.
  { rewrite record_sale_inventory. by apply fmap_matching_absent. }
  split_and!; try done.
  by rewrite Hsame.
Qed.

(** * Further properties of the code *)

(** ** init_db *)

Lemma init_db_unfold (file : db) :
  init_db file = Sql.insert_or_ignore_user "admin" (make_hashes "admin123") file.
Proof. reflexivity. Qed.

Lemma insert_or_ignore_user_taken (username password stored : string) (d : db) :
  users d !! username = Some stored →
  Sql.insert_or_ignore_user username password d = d.
Proof. intros Hrow. unfold Sql.insert_or_ignore_user. by rewrite Hrow. Qed.

Lemma insert_or_ignore_user_free (username password : string) (d : db) :
  users d !! username = None →
  Sql.insert_or_ignore_user username password d
  = set_users (<[username := password]> (users d)) d.
Proof. intros Hfree. unfold Sql.insert_or_ignore_user. by rewrite Hfree. Qed.

Lemma insert_or_ignore_user_lookup (username password other : string) (d : db) :
  users (Sql.insert_or_ignore_user username password d) !! other
  = if decide (other = username)
    then Some (default password (users d !! username))
    else users d !! other.
Proof.
  destruct (users d !! username) as [stored|] eqn:Hrow.
  - rewrite (insert_or_ignore_user_taken _ _ stored) by done.
    case_decide as Heq; [|done]. by rewrite Heq, Hrow.
  - rewrite insert_or_ignore_user_free by done. unfold set_users. cbn [users].
    case_decide as Heq.
    + rewrite Heq. by rewrite lookup_insert_eq.
    + by rewrite lookup_insert_ne.
Qed.

Lemma insert_or_ignore_user_tables (username password : string) (d : db) :
  inventory (Sql.insert_or_ignore_user username password d) = inventory d ∧
  inventory_seq (Sql.insert_or_ignore_user username password d) = inventory_seq d ∧
  sales (Sql.insert_or_ignore_user username password d) = sales d ∧
  sales_seq (Sql.insert_or_ignore_user username password d) = sales_seq d.
Proof. unfold Sql.insert_or_ignore_user. by destruct (users d !! username). Qed.

Lemma init_db_tables (file : db) :
  inventory (init_db file) = inventory file ∧
  inventory_seq (init_db file) = inventory_seq file ∧
  sales (init_db file) = sales file ∧
  sales_seq (init_db file) = sales_seq file.
Proof. rewrite init_db_unfold. apply insert_or_ignore_user_tables. Qed.

Lemma init_db_users (file : db) (u stored : string) :
  users file !! u = Some stored → users (init_db file) !! u = Some stored.
Proof.
  intros Hrow. rewrite init_db_unfold, insert_or_ignore_user_lookup.
  case_decide as Heq; [|done]. rewrite <- Heq, Hrow. done.
Qed.

(** X1: [init_db] seeds the account [admin] with the digest of
    [admin123] only when the users table has no [admin] row: a row that is
    there keeps its stored text (INSERT OR IGNORE). Every other account,
    the inventory and sales tables and their counters are untouched, and a
    second [init_db] changes nothing. *)
Theorem init_db_seeds_once (file : db) :
  users (init_db file) !! "admin"
  = Some (default (make_hashes "admin123") (users file !! "admin")) ∧
  (∀ other, other ≠ "admin" → users (init_db file) !! other = users file !! other) ∧
  inventory (init_db file) = inventory file ∧
  inventory_seq (init_db file) = inventory_seq file ∧
  sales (init_db file) = sales file ∧
  sales_seq (init_db file) = sales_seq file ∧
  init_db (init_db file) = init_db file.
Proof.
  assert (users (init_db file) !! "admin"
          = Some (default (make_hashes "admin123") (users file !! "admin"))) as Hadmin.
  { rewrite init_db_unfold, insert_or_ignore_user_lookup. by rewrite decide_True. }
  destruct (init_db_tables file) as (Hinv & Hseq & Hsales & Hsseq).
  split_and!; try done.
  - intros other Hne. rewrite init_db_unfold, insert_or_ignore_user_lookup.
    by rewrite decide_False.
  - rewrite (init_db_unfold (init_db file)).
    by apply insert_or_ignore_user_taken
      with (default (make_hashes "admin123") (users file !! "admin")).
Qed.

(** ** Accounts over the runs of the script *)

Lemma create_user_users (file : db) (username password u stored : string) :
  users file !! u = Some stored →
  users (create_user file username password).2 !! u = Some stored.
Proof.
  intros Hrow. destruct (users file !! username) as [taken|] eqn:Hname.
  - by rewrite create_user_taken by eauto.
  - rewrite create_user_free by done. unfold set_users. cbn [snd users].
    rewrite lookup_insert_ne; [done|]. intros ->. congruence.
Qed.

Lemma create_user_tables (file : db) (username password : string) :
  inventory (create_user file username password).2 = inventory file ∧
  inventory_seq (create_user file username password).2 = inventory_seq file ∧
  sales (create_user file username password).2 = sales file ∧
  sales_seq (create_user file username password).2 = sales_seq file.
Proof.
  destruct (users file !! username) as [taken|] eqn:Hname.
  - by rewrite create_user_taken by eauto.
  - by rewrite create_user_free by done.
Qed.

Lemma handle_users (file : db) (req : request) (u stored : string) :
  users file !! u = Some stored → users (handle file req) !! u = Some stored.
Proof.
  intros Hrow. apply init_db_users in Hrow.
  destruct req; unfold handle, submit; [by apply create_user_users|exact Hrow..].
Qed.

Lemma foldl_handle_users (history : list request) (file : db) (u stored : string) :
  users file !! u = Some stored →
  users (foldl handle file history) !! u = Some stored.
Proof.
  revert file. induction history as [|req history IH]; intros file Hrow; [done|].
  cbn [foldl]. apply IH. by apply handle_users.
Qed.

(** X2: after any history of runs on a new database the account [admin]
    still has the digest of [admin123]: the bootstrap login succeeds,
    [init_db] at the top of a run changes nothing, and signing up as
    [admin] returns [False] whatever the password. *)
Theorem replay_admin_account (history : list request) :
  users (replay history) !! "admin" = Some (make_hashes "admin123") ∧
  login_user (replay history) "admin" "admin123" = PyBool true ∧
  init_db (replay history) = replay history ∧
  (∀ password,
     create_user (replay history) "admin" password = (Returns false, replay history)).
Proof.
  assert (users (replay history) !! "admin" = Some (make_hashes "admin123")) as Hadmin.
  { apply foldl_handle_users. exact init_db_seeds_admin. }
  split_and!.
  - done.
  - rewrite (login_user_row _ _ _ _ Hadmin). by rewrite check_hashes_own_digest.
  - rewrite init_db_unfold.
    by apply insert_or_ignore_user_taken with (make_hashes "admin123").
  - intros password. apply create_user_taken. by rewrite Hadmin.
Qed.

(** X3: no run of the script updates or removes an account. A username
    with a stored digest keeps that digest through every later history of
    runs, so each password attempt gets the answer it got before. *)
Theorem accounts_persist (file : db) (history : list request) (u stored : string) :
  users file !! u = Some stored →
  users (foldl handle file history) !! u = Some stored ∧
  (∀ attempt,
     login_user (foldl handle file history) u attempt = login_user file u attempt).
Proof.
  intros Hrow. pose proof (foldl_handle_users history file u stored Hrow) as Hlater.
  split; [done|]. intros attempt.
  by rewrite (login_user_row _ _ _ _ Hlater), (login_user_row _ _ _ _ Hrow).
Qed.

Lemma accounts_persist_witness :
  users (foldl handle shop [CreateUser "admin" "hunter2hunter2"; DeleteItem 1]) !! "admin"
  = Some (make_hashes "admin123") ∧
  (∀ attempt,
     login_user (foldl handle shop [CreateUser "admin" "hunter2hunter2"; DeleteItem 1])
       "admin" attempt
     = login_user shop "admin" attempt).
Proof.
  apply (accounts_persist shop [CreateUser "admin" "hunter2hunter2"; DeleteItem 1]
           "admin" (make_hashes "admin123")).
  reflexivity.
Defined.

(** ** AUTOINCREMENT ids *)

Lemma fold_right_max_bound (ids : list Z) (x : Z) :
  x ∈ ids → x ≤ fold_right Z.max 0 ids.
Proof.
  induction ids as [|y ids IH]; intros Hin; [by apply elem_of_nil in Hin|].
  cbn [fold_right]. apply elem_of_cons in Hin as [->|Hin]; [lia|].
  specialize (IH Hin). lia.
Qed.

Lemma next_rowid_above_seq (seq : Z) (ids : list Z) : seq < Sql.next_rowid seq ids.
Proof. unfold Sql.next_rowid. lia. Qed.

Lemma next_rowid_above_ids (seq : Z) (ids : list Z) (x : Z) :
  x ∈ ids → x < Sql.next_rowid seq ids.
Proof. intros Hin%fold_right_max_bound. unfold Sql.next_rowid. lia. Qed.

Lemma next_rowid_positive (seq : Z) (ids : list Z) : 0 < Sql.next_rowid seq ids.
Proof.
  unfold Sql.next_rowid.
  assert (0 ≤ fold_right Z.max 0 ids); [|lia].
  induction ids as [|y ids IH]; cbn [fold_right]; lia.
Qed.

Lemma add_item_unfold (file : db) (item category : string) (quantity : Z)
    (price : float) (min_stock : Z) :
  add_item file item category quantity price min_stock
  = (PyNone, Sql.insert_inventory item category quantity price min_stock file).
Proof. reflexivity. Qed.

(** What the INSERT of [add_item] does. *)
Lemma add_item_in_range (file : db) (item category : string)
    (quantity : Z) (price : float) (min_stock : Z) :
  let file' := (add_item file item category quantity price min_stock).2 in
  let new_id := Sql.next_rowid (inventory_seq file) (Inventory.id <$> inventory file) in
  (add_item file item category quantity price min_stock).1 = PyNone ∧
  get_inventory file'
  = get_inventory file ++ [Inventory.Row new_id item category quantity price min_stock] ∧
  (∀ r, r ∈ get_inventory file → Inventory.id r < new_id) ∧
  0 < new_id ∧
  inventory_seq file < new_id ∧
  inventory_seq file' = new_id ∧
  users file' = users file ∧
  sales file' = sales file ∧
  sales_seq file' = sales_seq file.
Proof.
  intros file' new_id. subst file' new_id. rewrite add_item_unfold.
  split_and!; try reflexivity.
  - intros r Hin. apply next_rowid_above_ids. by apply list_elem_of_fmap_2.
  - apply next_rowid_positive.
  - apply next_rowid_above_seq.
Qed.

(** ** The tables stay well formed *)

Section keyed_rows.
Context {A : Type} (key : A → Z).
Implicit Types (rows : list A) (seq : Z).

Lemma sorted_keys_filter (P : A → Prop) `{!∀ x, Decision (P x)} rows :
  StronglySorted Z.lt (key <$> rows) →
  StronglySorted Z.lt (key <$> filter P rows).
Proof.
  induction rows as [|r rows IH]; [done|].
  rewrite fmap_cons, StronglySorted_cons. intros [Hbelow Hsorted].
  rewrite filter_cons. case_decide; [|by apply IH].
  rewrite fmap_cons. apply StronglySorted_cons. split; [|by apply IH].
  apply Forall_forall. intros x Hx.
  apply list_elem_of_fmap in Hx as (r' & -> & Hr').
  apply list_elem_of_filter in Hr' as [_ Hr'].
  rewrite Forall_forall in Hbelow. apply Hbelow. by apply list_elem_of_fmap_2.
Qed.

Lemma sorted_keys_snoc rows seq (r : A) :
  StronglySorted Z.lt (key <$> rows) →
  key r = Sql.next_rowid seq (key <$> rows) →
  StronglySorted Z.lt (key <$> rows ++ [r]).
Proof.
  intros Hsorted Hnew. rewrite fmap_app. apply StronglySorted_app_2.
  - intros x y Hx Hy. apply list_elem_of_singleton in Hy. subst y.
    rewrite Hnew. by apply next_rowid_above_ids.
  - done.
  - by repeat constructor.
Qed.

Lemma bounded_keys_snoc rows seq (r : A) :
  Forall (fun r => 0 < key r ≤ seq) rows →
  key r = Sql.next_rowid seq (key <$> rows) →
  Forall (fun r => 0 < key r ≤ Sql.next_rowid seq (key <$> rows)) (rows ++ [r]).
Proof.
  intros Hbound Hnew. apply Forall_app. split.
  - eapply Forall_impl; [exact Hbound|]. intros r' Hr'. cbn in Hr'.
    pose proof (next_rowid_above_seq seq (key <$> rows)). lia.
  - apply Forall_singleton. rewrite Hnew.
    pose proof (next_rowid_positive seq (key <$> rows)). lia.
Qed.

Lemma bounded_keys_filter (P : A → Prop) `{!∀ x, Decision (P x)} rows seq :
  Forall (fun r => 0 < key r ≤ seq) rows →
  Forall (fun r => 0 < key r ≤ seq) (filter P rows).
Proof.
  rewrite !Forall_forall. intros Hbound r Hin.
  apply list_elem_of_filter in Hin as [_ Hin]. by apply Hbound.
Qed.

Lemma bounded_keys_fmap (change : A → A) rows seq :
  (∀ r, key (change r) = key r) →
  Forall (fun r => 0 < key r ≤ seq) rows →
  Forall (fun r => 0 < key r ≤ seq) (change <$> rows).
Proof.
  intros Hkeeps Hbound. apply Forall_fmap.
  eapply Forall_impl; [exact Hbound|]. intros r Hr. cbn. by rewrite Hkeeps.
Qed.

Lemma sorted_keys_NoDup rows :
  StronglySorted Z.lt (key <$> rows) → NoDup (key <$> rows).
Proof.
  induction rows as [|r rows IH]; [constructor|].
  rewrite fmap_cons, StronglySorted_cons. intros [Hbelow Hsorted].
  apply NoDup_cons. split; [|by apply IH].
  intros Hin. rewrite Forall_forall in Hbelow. specialize (Hbelow _ Hin). lia.
Qed.

End keyed_rows.

Lemma update_item_unfold (file : db) (item_id : Z) (item category : string)
    (quantity : Z) (price : float) (min_stock : Z) :
  update_item file item_id item category quantity price min_stock
  = (PyNone, Sql.update_inventory item category quantity price min_stock item_id file).
Proof. reflexivity. Qed.

Lemma delete_item_unfold (file : db) (item_id : Z) :
  delete_item file item_id = (PyNone, Sql.delete_inventory item_id file).
Proof. reflexivity. Qed.

Lemma well_formed_tables (d d' : db) :
  inventory d' = inventory d → inventory_seq d' = inventory_seq d →
  sales d' = sales d → sales_seq d' = sales_seq d →
  well_formed d → well_formed d'.
Proof. unfold well_formed. by intros -> -> -> ->. Qed.

Lemma init_db_well_formed (file : db) : well_formed file → well_formed (init_db file).
Proof. destruct (init_db_tables file) as (? & ? & ? & ?). by apply well_formed_tables. Qed.

Lemma insert_inventory_well_formed (item category : string) (quantity : Z)
    (price : float) (min_stock : Z) (d : db) :
  well_formed d →
  well_formed (Sql.insert_inventory item category quantity price min_stock d).
Proof.
  intros (Hsorted & Hbound & Hsales & Hsbound).
  unfold well_formed, Sql.insert_inventory. cbn [inventory inventory_seq sales sales_seq].
  split_and!; [| |done|done].
  - by apply (sorted_keys_snoc Inventory.id _ (inventory_seq d)).
  - by apply (bounded_keys_snoc Inventory.id).
Qed.

Lemma update_inventory_well_formed (item category : string) (quantity : Z)
    (price : float) (min_stock item_id : Z) (d : db) :
  well_formed d →
  well_formed (Sql.update_inventory item category quantity price min_stock item_id d).
Proof.
  intros (Hsorted & Hbound & Hsales & Hsbound).
  unfold well_formed, Sql.update_inventory, set_inventory.
  cbn [inventory inventory_seq sales sales_seq].
  split_and!; [| |done|done].
  - by rewrite (fmap_matching_ids
                  (fun r => Inventory.Row (Inventory.id r) item category quantity price
                              min_stock)).
  - apply (bounded_keys_fmap Inventory.id); [|done]. intros r. by case_decide.
Qed.

Lemma decrement_quantity_well_formed (quantity item_id : Z) (d : db) :
  well_formed d → well_formed (Sql.decrement_quantity quantity item_id d).
Proof.
  intros (Hsorted & Hbound & Hsales & Hsbound).
  unfold well_formed, Sql.decrement_quantity, set_inventory.
  cbn [inventory inventory_seq sales sales_seq].
  split_and!; [| |done|done].
  - by rewrite (fmap_matching_ids
                  (fun r => with_quantity (Inventory.quantity r - quantity) r)).
  - apply (bounded_keys_fmap Inventory.id); [|done]. intros r. by case_decide.
Qed.

Lemma delete_inventory_well_formed (item_id : Z) (d : db) :
  well_formed d → well_formed (Sql.delete_inventory item_id d).
Proof.
  intros (Hsorted & Hbound & Hsales & Hsbound).
  unfold well_formed, Sql.delete_inventory, set_inventory.
  cbn [inventory inventory_seq sales sales_seq].
  split_and!; [| |done|done].
  - by apply sorted_keys_filter.
  - by apply (bounded_keys_filter Inventory.id).
Qed.

Lemma insert_sale_well_formed (item_id quantity : Z) (sale_price : float)
    (sale_date : string) (d : db) :
  well_formed d → well_formed (Sql.insert_sale item_id quantity sale_price sale_date d).
Proof.
  intros (Hsorted & Hbound & Hsales & Hsbound).
  unfold well_formed, Sql.insert_sale. cbn [inventory inventory_seq sales sales_seq].
  split_and!; [done|done| |].
  - by apply (sorted_keys_snoc Sales.id _ (sales_seq d)).
  - by apply (bounded_keys_snoc Sales.id).
Qed.

Lemma submit_well_formed (file : db) (req : request) :
  well_formed file → well_formed (submit file req).
Proof.
  intros Hfile. destruct req; unfold submit.
  - destruct (create_user_tables file username password) as (? & ? & ? & ?).
    by apply (well_formed_tables file).
  - rewrite add_item_unfold. by apply insert_inventory_well_formed.
  - rewrite update_item_unfold. by apply update_inventory_well_formed.
  - rewrite delete_item_unfold. by apply delete_inventory_well_formed.
  - rewrite record_sale_unfold.
    by apply insert_sale_well_formed, decrement_quantity_well_formed.
Qed.

Lemma handle_well_formed (file : db) (req : request) :
  well_formed file → well_formed (handle file req).
Proof. intros Hfile. by apply submit_well_formed, init_db_well_formed. Qed.

Lemma foldl_handle_well_formed (history : list request) (file : db) :
  well_formed file → well_formed (foldl handle file history).
Proof.
  revert file. induction history as [|req history IH]; intros file Hfile; [done|].
  cbn [foldl]. by apply IH, handle_well_formed.
Qed.

(** X5: after any history of runs on a new database, both AUTOINCREMENT
    tables list their rows by strictly increasing id, every id is positive
    and at most the table's counter, and so no two inventory rows and no
    two sales rows share an id. *)
Theorem replay_well_formed (history : list request) :
  well_formed (replay history) ∧ primary_keys (replay history).
Proof.
  assert (well_formed (replay history)) as Hfile.
  { apply foldl_handle_well_formed, init_db_well_formed.
    unfold well_formed. cbn. split_and!; constructor. }
  split; [done|]. destruct Hfile as (Hsorted & _ & Hsales & _).
  split; by apply sorted_keys_NoDup.
Qed.

(** ** Ids are not reused *)

Lemma fmap_matching_elem_of (change : Inventory.row → Inventory.row)
    (rows : list Inventory.row) (item_id : Z) (r : Inventory.row) :
  (∀ r, Inventory.id (change r) = Inventory.id r) →
  r ∈ (fun r => if decide (Inventory.id r = item_id) then change r else r) <$> rows →
  ∃ r0, r0 ∈ rows ∧ Inventory.id r = Inventory.id r0.
Proof.
  intros Hkeeps Hin. apply list_elem_of_fmap in Hin as (r0 & -> & Hr0).
  exists r0. split; [done|]. by case_decide.
Qed.

Lemma submit_keeps_id_retired (file : db) (req : request) (item_id : Z) :
  item_id ≤ inventory_seq file →
  (∀ r, r ∈ inventory file → Inventory.id r ≠ item_id) →
  item_id ≤ inventory_seq (submit file req) ∧
  (∀ r, r ∈ inventory (submit file req) → Inventory.id r ≠ item_id).
Proof.
  intros Hseq Habsent. destruct req; unfold submit.
  - destruct (create_user_tables file username password) as (-> & -> & _ & _). done.
  - rewrite add_item_unfold. unfold Sql.insert_inventory. cbn [snd inventory inventory_seq].
    pose proof (next_rowid_above_seq (inventory_seq file) (Inventory.id <$> inventory file)).
    split; [lia|]. intros r Hin. apply elem_of_app in Hin as [Hin|Hin].
    + by apply Habsent.
    + apply list_elem_of_singleton in Hin. subst r. cbn [Inventory.id]. lia.
  - rewrite update_item_unfold. unfold Sql.update_inventory, set_inventory.
    cbn [snd inventory inventory_seq]. split; [done|]. intros r Hin.
    apply (fmap_matching_elem_of
             (fun r => Inventory.Row (Inventory.id r) item category quantity price
                         min_stock)) in Hin as (r0 & Hr0 & ->); [|done].
    by apply Habsent.
  - rewrite delete_item_unfold. unfold Sql.delete_inventory, set_inventory.
    cbn [snd inventory inventory_seq]. split; [done|]. intros r Hin.
    apply list_elem_of_filter in Hin as [_ Hin]. by apply Habsent.
  - rewrite record_sale_unfold. unfold Sql.insert_sale, Sql.decrement_quantity, set_inventory.
    cbn [snd inventory inventory_seq]. split; [done|]. intros r Hin.
    apply (fmap_matching_elem_of
             (fun r => with_quantity (Inventory.quantity r - quantity) r))
      in Hin as (r0 & Hr0 & ->); [|done].
    by apply Habsent.
Qed.

Lemma foldl_handle_keeps_id_retired (history : list request) (file : db) (item_id : Z) :
  item_id ≤ inventory_seq file →
  (∀ r, r ∈ inventory file → Inventory.id r ≠ item_id) →
  ∀ r, r ∈ inventory (foldl handle file history) → Inventory.id r ≠ item_id.
Proof.
  revert file. induction history as [|req history IH]; intros file Hseq Habsent; [done|].
  cbn [foldl]. unfold handle.
  destruct (init_db_tables file) as (Hinv & Hiseq & _ & _).
  rewrite <- Hinv in Habsent. rewrite <- Hiseq in Hseq.
  destruct (submit_keeps_id_retired (init_db file) req item_id Hseq Habsent).
  by apply IH.
Qed.

(** X6: an id that [delete_item] has removed is never given out again.
    For an id at most the table's counter (every id of a well-formed table
    is), after [delete_item] and any further history of runs no inventory
    row carries that id, so a sale recorded for the deleted item joins no
    row of the inventory: [get_sales] never shows it under a later item. *)
Theorem deleted_id_never_reused (file : db) (item_id : Z) (history : list request) :
  item_id ≤ inventory_seq file →
  let file' := foldl handle (delete_item file item_id).2 history in
  (∀ r, r ∈ get_inventory file' → Inventory.id r ≠ item_id) ∧
  (∀ s, Sales.item_id s = item_id → Sql.sale_rows (inventory file') s = []).
Proof.
  intros Hseq file'.
  assert (∀ r, r ∈ inventory file' → Inventory.id r ≠ item_id) as Hgone.
  { apply foldl_handle_keeps_id_retired; [done|].
    intros r Hin. rewrite delete_item_inventory in Hin.
    by apply list_elem_of_filter in Hin as [Hne _]. }
  split; [done|]. intros s Hs. apply sale_rows_orphan. rewrite Hs. done.
Qed.

Lemma deleted_id_never_reused_witness :
  let file' :=
    foldl handle (delete_item shop 1).2
      [AddItem "Rice" "groceries" 4 500%float 5; RecordSale noon 1 1 480%float] in
  (∀ r, r ∈ get_inventory file' → Inventory.id r ≠ 1) ∧
  (∀ s, Sales.item_id s = 1 → Sql.sale_rows (inventory file') s = []).
Proof.
  apply (deleted_id_never_reused shop 1
           [AddItem "Rice" "groceries" 4 500%float 5; RecordSale noon 1 1 480%float]).
  vm_compute. discriminate.
Defined.

(** ** update_item and delete_item on one row *)

(** The UPDATE of [update_item] on an id that no inventory row carries
    changes nothing. *)
Lemma update_item_in_range_absent (file : db) (item_id : Z) (item category : string)
    (quantity : Z) (price : float) (min_stock : Z) :
  (∀ r, r ∈ inventory file → Inventory.id r ≠ item_id) →
  update_item file item_id item category quantity price min_stock = (PyNone, file).
Proof.
  intros Habsent. rewrite update_item_unfold. unfold Sql.update_inventory.
  rewrite (fmap_matching_absent
             (fun r => Inventory.Row (Inventory.id r) item category quantity price
                         min_stock)) by done.
  by rewrite set_inventory_same.
Qed.

Lemma filter_other_ids_delete (rows : list Inventory.row) (k : nat) (r : Inventory.row) :
  NoDup (Inventory.id <$> rows) →
  rows !! k = Some r →
  filter (fun r' => Inventory.id r' ≠ Inventory.id r) rows = delete k rows.
Proof.
  revert k. induction rows as [|r0 rows IH]; intros k Hkeys Hrow; [done|].
  rewrite fmap_cons in Hkeys. apply NoDup_cons in Hkeys as [Hfresh Hkeys].
  destruct k as [|k]; cbn in Hrow.
  - injection Hrow as ->. rewrite filter_cons_False by (intros Hne; by apply Hne).
    cbn [delete list_delete]. apply filter_other_ids_absent.
    intros r' Hin Heq. apply Hfresh. rewrite <- Heq. by apply list_elem_of_fmap_2.
  - rewrite filter_cons_True.
    + cbn [delete list_delete]. f_equal. by apply IH.
    + intros Heq. apply Hfresh. rewrite Heq. apply list_elem_of_fmap_2.
      by apply list_elem_of_lookup_2 with k.
Qed.

(** X8: with the ids of the inventory unique, [delete_item] on the id of
    the row at position [k] removes exactly that row: the listing is the
    old one without position [k], in the same order and one row shorter,
    and no row with that id is left. The sales table keeps every row, also
    those of the deleted item; the counters and the users are untouched;
    deleting the same id again changes nothing. *)
Theorem delete_item_removes_row (file : db) (k : nat) (r : Inventory.row) :
  NoDup (Inventory.id <$> inventory file) →
  get_inventory file !! k = Some r →
  let file' := (delete_item file (Inventory.id r)).2 in
  get_inventory file' = delete k (get_inventory file) ∧
  S (length (get_inventory file')) = length (get_inventory file) ∧
  (∀ r', r' ∈ get_inventory file' → Inventory.id r' ≠ Inventory.id r) ∧
  sales file' = sales file ∧
  sales_seq file' = sales_seq file ∧
  inventory_seq file' = inventory_seq file ∧
  users file' = users file ∧
  delete_item file' (Inventory.id r) = (PyNone, file').
Proof.
  intros Hkeys Hrow file'.
  assert (get_inventory file' = delete k (get_inventory file)) as Hlisting.
  { subst file'. unfold get_inventory, Sql.select_inventory. cbn [connect working].
    rewrite delete_item_inventory. by apply filter_other_ids_delete. }
  assert (∀ r', r' ∈ get_inventory file' → Inventory.id r' ≠ Inventory.id r) as Hgone.
  { intros r' Hin. subst file'. unfold get_inventory, Sql.select_inventory in Hin.
    cbn [connect working] in Hin. rewrite delete_item_inventory in Hin.
    by apply list_elem_of_filter in Hin as [Hne _]. }
  split_and!; try done.
  - rewrite Hlisting, length_delete by done.
    apply lookup_lt_Some in Hrow. lia.
  - rewrite delete_item_unfold. unfold Sql.delete_inventory.
    rewrite filter_other_ids_absent by exact Hgone.
    by rewrite set_inventory_same.
Qed.

Lemma delete_item_removes_row_witness :
  let file' := (delete_item shop 1).2 in
  get_inventory file' = delete 0%nat (get_inventory shop) ∧
  S (length (get_inventory file')) = length (get_inventory shop) ∧
  (∀ r', r' ∈ get_inventory file' → Inventory.id r' ≠ 1) ∧
  sales file' = sales shop ∧
  sales_seq file' = sales_seq shop ∧
  inventory_seq file' = inventory_seq shop ∧
  users file' = users shop ∧
  delete_item file' 1 = (PyNone, file').
Proof.
  apply (delete_item_removes_row shop 0%nat
           (Inventory.Row 1 "Rice" "groceries" 10 500%float 5)).
  - apply NoDup_singleton.
  - reflexivity.
Defined.

(** ** The sales listing follows the inventory *)

Lemma sale_rows_fmap_other (change : Inventory.row → Inventory.row)
    (items : list Inventory.row) (item_id : Z) (s : Sales.row) :
  (∀ i, Inventory.id (change i) = Inventory.id i) →
  Sales.item_id s ≠ item_id →
  Sql.sale_rows
    ((fun r => if decide (Inventory.id r = item_id) then change r else r) <$> items) s
  = Sql.sale_rows items s.
Proof.
  intros Hkeeps Hother. induction items as [|i items IH]; [done|].
  rewrite fmap_cons, !sale_rows_cons, IH. f_equal.
  destruct (decide (Inventory.id i = item_id)) as [Hid|Hid]; [|done].
  rewrite Hkeeps, !decide_False; [done|congruence..].
Qed.

(** The join after the UPDATE of [update_item]. *)
Lemma update_item_in_range_renames (file : db) (item_id : Z) (item category : string)
    (quantity : Z) (price : float) (min_stock : Z) (r : Inventory.row) :
  NoDup (Inventory.id <$> inventory file) →
  r ∈ inventory file →
  Inventory.id r = item_id →
  let file' := (update_item file item_id item category quantity price min_stock).2 in
  sales file' = sales file ∧
  (∀ s, Sales.item_id s = item_id →
     Sql.sale_rows (inventory file') s
     = [SaleView.Row (Sales.id s) item (Sales.quantity s) (Sales.sale_price s)
          (Sales.sale_date s)]) ∧
  (∀ s, Sales.item_id s ≠ item_id →
     Sql.sale_rows (inventory file') s = Sql.sale_rows (inventory file) s) ∧
  length (get_sales file') = length (get_sales file).
Proof.
  intros Hkeys Hin Hid file'.
  pose (change := fun r : Inventory.row =>
                    Inventory.Row (Inventory.id r) item category quantity price min_stock).
  assert (inventory file'
          = (fun r => if decide (Inventory.id r = item_id) then change r else r)
              <$> inventory file) as Hinv by reflexivity.
  assert (Inventory.id <$> inventory file' = Inventory.id <$> inventory file) as Hids.
  { rewrite Hinv. by apply fmap_matching_ids. }
  split_and!.
  - reflexivity.
  - intros s Hs. rewrite (sale_rows_unique _ (change r)).
    + reflexivity.
    + by rewrite Hids.
    + rewrite Hinv. apply list_elem_of_fmap. exists r. by rewrite decide_True.
    + by rewrite Hs, <- Hid.
  - intros s Hs. rewrite Hinv. by apply sale_rows_fmap_other.
  - rewrite !get_sales_length, Hids by (by rewrite ?Hids). reflexivity.
Qed.

(** ** Stock and sales *)

Lemma foldr_add_app (xs ys : list Z) :
  foldr Z.add 0 (xs ++ ys) = foldr Z.add 0 xs + foldr Z.add 0 ys.
Proof. induction xs as [|x xs IH]; cbn [foldr app]; lia. Qed.

Lemma units_sold_snoc (item_id : Z) (rows : list Sales.row) (s : Sales.row) :
  units_sold item_id (rows ++ [s])
  = units_sold item_id rows
    + (if decide (Sales.item_id s = item_id) then Sales.quantity s else 0).
Proof.
  unfold units_sold. rewrite filter_app, fmap_app, foldr_add_app. f_equal.
  rewrite filter_cons, filter_nil. case_decide; cbn; lia.
Qed.

Lemma stock_on_hand_cons (item_id : Z) (r : Inventory.row) (rows : list Inventory.row) :
  stock_on_hand item_id (r :: rows)
  = (if decide (Inventory.id r = item_id) then Inventory.quantity r else 0)
    + stock_on_hand item_id rows.
Proof. unfold stock_on_hand. rewrite filter_cons. case_decide; cbn; lia. Qed.

Lemma stock_on_hand_absent (item_id : Z) (rows : list Inventory.row) :
  (∀ r, r ∈ rows → Inventory.id r ≠ item_id) → stock_on_hand item_id rows = 0.
Proof.
  induction rows as [|r rows IH]; intros Habsent; [done|].
  rewrite stock_on_hand_cons, decide_False by (apply Habsent; left).
  rewrite IH; [done|]. intros r' Hin. apply Habsent. by right.
Qed.

Lemma stock_on_hand_unique (rows : list Inventory.row) (r : Inventory.row) :
  NoDup (Inventory.id <$> rows) →
  r ∈ rows →
  stock_on_hand (Inventory.id r) rows = Inventory.quantity r.
Proof.
  induction rows as [|r0 rows IH]; intros Hkeys Hin; [by apply elem_of_nil in Hin|].
  rewrite fmap_cons in Hkeys. apply NoDup_cons in Hkeys as [Hfresh Hkeys].
  rewrite stock_on_hand_cons. apply elem_of_cons in Hin as [<-|Hin].
  - rewrite decide_True by done. rewrite stock_on_hand_absent; [lia|].
    intros r' Hr' Heq. apply Hfresh. rewrite <- Heq. by apply list_elem_of_fmap_2.
  - rewrite decide_False.
    + rewrite IH by done. lia.
    + intros Heq. apply Hfresh. rewrite Heq. by apply list_elem_of_fmap_2.
Qed.

Lemma stock_on_hand_fmap_other (change : Inventory.row → Inventory.row)
    (rows : list Inventory.row) (item_id other : Z) :
  (∀ r, Inventory.id (change r) = Inventory.id r) →
  other ≠ item_id →
  stock_on_hand other
    ((fun r => if decide (Inventory.id r = item_id) then change r else r) <$> rows)
  = stock_on_hand other rows.
Proof.
  intros Hkeeps Hother. induction rows as [|r rows IH]; [done|].
  rewrite fmap_cons, !stock_on_hand_cons, IH. f_equal.
  destruct (decide (Inventory.id r = item_id)) as [Hid|Hid]; [|done].
  rewrite Hkeeps, !decide_False; [done|congruence..].
Qed.

(** Stock and units sold after the statements of [record_sale]. *)
Lemma record_sale_in_range_conserves (file : db) (now : datetime)
    (item_id quantity : Z) (sale_price : float) (r : Inventory.row) :
  NoDup (Inventory.id <$> inventory file) →
  r ∈ inventory file →
  Inventory.id r = item_id →
  let file' := (record_sale file now item_id quantity sale_price).2 in
  stock_on_hand item_id (inventory file') = Inventory.quantity r - quantity ∧
  units_sold item_id (sales file') = units_sold item_id (sales file) + quantity ∧
  (∀ other,
     stock_on_hand other (inventory file') + units_sold other (sales file')
     = stock_on_hand other (inventory file) + units_sold other (sales file)).
Proof.
  intros Hkeys Hin Hid file'.
  pose (change := fun r : Inventory.row =>
                    with_quantity (Inventory.quantity r - quantity) r).
  assert (inventory file'
          = (fun r => if decide (Inventory.id r = item_id) then change r else r)
              <$> inventory file) as Hinv by reflexivity.
  assert (stock_on_hand item_id (inventory file') = Inventory.quantity r - quantity)
    as Hstock.
  { rewrite <- Hid. change (Inventory.id r) with (Inventory.id (change r)).
    change (Inventory.quantity r - quantity) with (Inventory.quantity (change r)).
    apply stock_on_hand_unique.
    - rewrite Hinv. by rewrite (fmap_matching_ids change).
    - rewrite Hinv. apply list_elem_of_fmap. exists r. by rewrite decide_True. }
  assert (∀ other, units_sold other (sales file')
                   = units_sold other (sales file)
                     + (if decide (item_id = other) then quantity else 0)) as Hsold.
  { intros other. subst file'. rewrite record_sale_sales. apply units_sold_snoc. }
  split_and!.
  - done.
  - by rewrite Hsold, decide_True.
  - intros other. rewrite Hsold. destruct (decide (item_id = other)) as [<-|Hother].
    + rewrite Hstock. rewrite <- Hid, stock_on_hand_unique by done. lia.
    + rewrite Hinv, stock_on_hand_fmap_other by done. lia.
Qed.

Lemma submit_sales_prefix (file : db) (req : request) :
  sales file `prefix_of` sales (submit file req).
Proof.
  destruct req; unfold submit; try done.
  - by destruct (create_user_tables file username password) as (_ & _ & -> & _).
  - rewrite record_sale_sales. by apply prefix_app_r.
Qed.

Lemma handle_sales_prefix (file : db) (req : request) :
  sales file `prefix_of` sales (handle file req).
Proof.
  unfold handle. destruct (init_db_tables file) as (_ & _ & Hsales & _).
  rewrite <- Hsales at 1. apply submit_sales_prefix.
Qed.

(** X11: the sales table is append-only. Whatever runs follow, the sales
    rows on file stay on file, unchanged and in the same positions, in
    front of the rows recorded later; no run updates or deletes a sale. *)
Theorem sales_append_only (file : db) (history : list request) :
  sales file `prefix_of` sales (foldl handle file history) ∧
  (∀ k s, sales file !! k = Some s → sales (foldl handle file history) !! k = Some s) ∧
  (length (sales file) ≤ length (sales (foldl handle file history)))%nat.
Proof.
  assert (sales file `prefix_of` sales (foldl handle file history)) as Hprefix.
  { revert file. induction history as [|req history IH]; intros file; [done|].
    cbn [foldl]. etrans; [apply handle_sales_prefix|apply IH]. }
  split_and!.
  - done.
  - intros k s Hrow. by apply (prefix_lookup_Some (sales file)).
  - by apply prefix_length.
Qed.

(** ** The forms of auth_page *)

(** X12: the sign-up form creates no account when the two passwords
    differ, when the password has fewer than 8 characters, or when the
    username is taken: it shows an error, and the database and the session
    are the ones it was given. *)
Theorem signup_form_rejects (file : db) (state : Session.state)
    (new_username new_password confirm_password : string) :
  new_password ≠ confirm_password ∨ (py_len new_password < 8)%nat ∨
    is_Some (users file !! new_username) →
  ∃ text,
    signup_form_submit file state new_username new_password confirm_password
    = (Returns (st_error text, state), file).
Proof.
  intros Hbad. unfold signup_form_submit.
  destruct (String.eqb new_password confirm_password) eqn:Hsame; cbn [negb];
    [|by eexists].
  apply String.eqb_eq in Hsame.
  destruct (py_len new_password <? 8)%nat eqn:Hlen; [by eexists|].
  apply Nat.ltb_ge in Hlen.
  destruct Hbad as [Hbad|[Hbad|Htaken]]; [done|lia|].
  rewrite create_user_taken by done. by eexists.
Qed.

Lemma signup_form_rejects_witness :
  ∃ text,
    signup_form_submit shop (Session.State false None false) "bob" "secret" "secret"
    = (Returns (st_error text, Session.State false None false), shop).
Proof.
  apply (signup_form_rejects shop (Session.State false None false) "bob" "secret" "secret").
  right. left. vm_compute. lia.
Defined.

(** X13: the sign-up form with a free username and a password of at least
    8 characters typed twice creates the account, leaves the session
    logged out as it was, and the login form then accepts that username
    and password: it sets [logged_in] and [username]. *)
Theorem signup_then_login (file : db) (state : Session.state)
    (new_username new_password : string) :
  (8 ≤ py_len new_password)%nat →
  users file !! new_username = None →
  ∃ file',
    signup_form_submit file state new_username new_password new_password
    = (Returns (st_success "Account created! Please login.",
                Session.State (Session.logged_in state) (Session.username state) false),
       file') ∧
    users file' !! new_username = Some (make_hashes new_password) ∧
    login_form_submit file'
      (Session.State (Session.logged_in state) (Session.username state) false)
      new_username new_password
    = (st_success "Login successful!", Session.State true (Some new_username) false).
Proof.
  intros Hlen Hfree.
  exists (set_users (<[new_username := make_hashes new_password]> (users file)) file).
  assert (users (set_users (<[new_username := make_hashes new_password]> (users file)) file)
            !! new_username = Some (make_hashes new_password)) as Hrow.
  { unfold set_users. cbn [users]. by rewrite lookup_insert_eq. }
  split_and!.
  - unfold signup_form_submit. rewrite String.eqb_refl. cbn [negb].
    apply Nat.ltb_ge in Hlen. rewrite Hlen. by rewrite create_user_free.
  - done.
  - unfold login_form_submit. rewrite (login_user_row _ _ _ _ Hrow).
    by rewrite check_hashes_own_digest.
Qed.

Lemma signup_then_login_witness :
  ∃ file',
    signup_form_submit shop (Session.State false None true) "bob" "longenough" "longenough"
    = (Returns (st_success "Account created! Please login.",
                Session.State false None false),
       file') ∧
    users file' !! "bob" = Some (make_hashes "longenough") ∧
    login_form_submit file' (Session.State false None false) "bob" "longenough"
    = (st_success "Login successful!", Session.State true (Some "bob") false).
Proof.
  apply (signup_then_login shop (Session.State false None true) "bob" "longenough").
  - vm_compute. lia.
  - reflexivity.
Defined.

(** X14: the login form logs a session in exactly when the users table
    stores, under the username, the digest of the password: then
    [logged_in] is set and [username] is the name typed; otherwise the
    session is left as it was. *)
Theorem login_form_submit_logs_in (file : db) (state : Session.state)
    (username password : string) :
  Session.logged_in state = false →
  let state' := (login_form_submit file state username password).2 in
  (Session.logged_in state' = true
   ↔ users file !! username = Some (make_hashes password)) ∧
  (Session.logged_in state' = true → Session.username state' = Some username) ∧
  (Session.logged_in state' = false → state' = state).
Proof.
  intros Hout state'. subst state'. unfold login_form_submit.
  destruct (users file !! username) as [stored|] eqn:Hrow.
  - rewrite (login_user_row _ _ _ _ Hrow). cbn [truthy].
    destruct (check_hashes password stored) eqn:Hcheck; cbn [snd Session.logged_in].
    + apply check_hashes_spec in Hcheck. subst stored. done.
    + split_and!; [|congruence|done]. rewrite Hout. split; [done|].
      intros [= Heq]. symmetry in Heq. apply check_hashes_spec in Heq. congruence.
  - rewrite login_user_absent by done. cbn [truthy snd]. rewrite Hout. done.
Qed.

Lemma login_form_submit_logs_in_witness :
  let state' :=
    (login_form_submit shop (Session.State false None false) "admin" "admin123").2 in
  (Session.logged_in state' = true
   ↔ users shop !! "admin" = Some (make_hashes "admin123")) ∧
  (Session.logged_in state' = true → Session.username state' = Some "admin") ∧
  (Session.logged_in state' = false → state' = Session.State false None false).
Proof.
  apply (login_form_submit_logs_in shop (Session.State false None false)
           "admin" "admin123").
  reflexivity.
Defined.

(** ** The forms of main_app *)

(** X15: the add form stores a row exactly when the item name is not
    empty. With an empty name it shows an error and the database is the
    one it was given; otherwise the listing gains one row with the typed
    fields and a fresh id. So if no row on file has an empty name, none has
    after the form. *)
Theorem add_form_submit_requires_name (file : db) (item category : string)
    (quantity : Z) (price : float) (min_stock : Z) :
  let out := add_form_submit file item category quantity price min_stock in
  let new_id := Sql.next_rowid (inventory_seq file) (Inventory.id <$> inventory file) in
  (item = EmptyString → out = (st_error "Item name required", file)) ∧
  (item ≠ EmptyString →
     out.1 = st_success "Item added!" ∧
     get_inventory out.2
     = get_inventory file
       ++ [Inventory.Row new_id item category quantity price min_stock]) ∧
  (Forall (fun r => Inventory.item r ≠ EmptyString) (inventory file) →
   Forall (fun r => Inventory.item r ≠ EmptyString) (inventory out.2)).
Proof.
  intros out new_id. subst out new_id. unfold add_form_submit.
  destruct (String.eqb item EmptyString) eqn:Hname; cbn [negb].
  - apply String.eqb_eq in Hname. split_and!; done.
  - apply String.eqb_neq in Hname. split_and!; [done|done|].
    intros Hnamed. rewrite add_item_unfold. unfold Sql.insert_inventory.
    cbn [snd inventory]. apply Forall_app. split; [done|].
    by apply Forall_singleton.
Qed.


Lemma first_named_elem_of (rows : list Inventory.row) (name : string)
    (r : Inventory.row) :
  first_named rows name = Some r → r ∈ rows ∧ Inventory.item r = name.
Proof.
  unfold first_named. intros Hhead%head_Some_elem_of.
  by apply list_elem_of_filter in Hhead as [? ?].
Qed.


Lemma row_of_id (rows : list Inventory.row) (r r' : Inventory.row) :
  NoDup (Inventory.id <$> rows) →
  r ∈ rows → r' ∈ rows → Inventory.id r = Inventory.id r' → r = r'.
Proof.
  intros Hkeys [i Hi]%list_elem_of_lookup [j Hj]%list_elem_of_lookup Heq.
  assert (i = j) as ->.
  { apply (NoDup_lookup _ i j (Inventory.id r) Hkeys).
    - by rewrite list_lookup_fmap, Hi.
    - by rewrite list_lookup_fmap, Hj, Heq. }
  congruence.
Qed.

(** ** The category box of the edit form *)

Lemma list_index_Some (x : string) (l : list string) (k : nat) :
  list_index x l = Some k → l !! k = Some x.
Proof.
  revert k. induction l as [|y l IH]; intros k; [done|].
  cbn [list_index]. case_decide as Heq.
  - intros [= <-]. by rewrite Heq.
  - destruct (list_index x l) as [k'|]; [|done].
    intros [= <-]. by apply IH.
Qed.

Lemma list_index_None (x : string) (l : list string) :
  list_index x l = None → x ∉ l.
Proof.
  induction l as [|y l IH]; [intros _; apply not_elem_of_nil|].
  cbn [list_index]. case_decide as Heq; [done|].
  destruct (list_index x l) as [k'|]; [done|].
  intros _. apply not_elem_of_cons. split; [done|by apply IH].
Qed.

(** X18: the index the edit form preselects in its category box is
    always one of the five options. It is the stored category when that
    is one of the edit form's options and the last option, [Other],
    otherwise; every category the add form offers is shown as [Other]. *)
Theorem default_index_selects (category : string) :
  (default_index category < length categories)%nat ∧
  (category ∈ categories → categories !! default_index category = Some category) ∧
  (category ∉ categories → categories !! default_index category = Some "Other") ∧
  (category ∈ add_categories → categories !! default_index category = Some "Other").
Proof.
  unfold default_index. split_and!.
  - destruct (list_index category categories) as [k|] eqn:Hindex.
    + apply list_index_Some in Hindex. by apply lookup_lt_Some in Hindex.
    + cbn. lia.
  - intros Hin. destruct (list_index category categories) as [k|] eqn:Hindex.
    + by apply list_index_Some.
    + by apply list_index_None in Hindex.
  - intros Hout. destruct (list_index category categories) as [k|] eqn:Hindex.
    + apply list_index_Some in Hindex. apply list_elem_of_lookup_2 in Hindex. done.
    + reflexivity.
  - intros Hin. unfold add_categories in Hin.
    repeat (apply elem_of_cons in Hin as [->|Hin]); [reflexivity..|].
    by apply elem_of_nil in Hin.
Qed.

(** ** The length of the digest *)

Lemma be_bytes_length (count : nat) (n : Z) : length (SHA256.be_bytes count n) = count.
Proof. unfold SHA256.be_bytes. by rewrite length_map, length_rev, length_seq. Qed.

Lemma compress_length (hash block : list Z) :
  length hash = 8%nat → length (SHA256.compress hash block) = 8%nat.
Proof.
  intros Hhash. unfold SHA256.compress.
  rewrite length_map, length_combine, Hhash. reflexivity.
Qed.

Lemma fold_compress_length (chunks : list (list Z)) (hash : list Z) :
  length hash = 8%nat → length (fold_left SHA256.compress chunks hash) = 8%nat.
Proof.
  revert hash. induction chunks as [|block chunks IH]; intros hash Hhash; [done|].
  cbn [fold_left]. by apply IH, compress_length.
Qed.

Lemma digest_length (msg : list Z) : length (SHA256.digest msg) = 32%nat.
Proof.
  unfold SHA256.digest. cbv zeta.
  assert (∀ ws : list Z,
            length (concat (map (SHA256.be_bytes 4) ws)) = (4 * length ws)%nat) as Hbytes.
  { induction ws as [|w ws IH]; [done|].
    cbn [map concat length]. rewrite length_app, be_bytes_length, IH. lia. }
  rewrite Hbytes, fold_compress_length; reflexivity.
Qed.

Lemma hexdigest_length (msg : list Z) : String.length (SHA256.hexdigest msg) = 64%nat.
Proof.
  unfold SHA256.hexdigest.
  assert (∀ bytes : list Z,
            String.length
              (fold_right (fun b acc => (SHA256.hex_byte b ++ acc)%string) EmptyString bytes)
            = (2 * length bytes)%nat) as Hhex.
  { induction bytes as [|b bytes IH]; [done|].
    cbn [fold_right length]. rewrite string_length_app, IH.
    unfold SHA256.hex_byte. cbn [String.length]. lia. }
  rewrite Hhex, digest_length. reflexivity.
Qed.

(** X19: the text [make_hashes] stores for a password has 64 characters,
    whatever the password, the empty one included; so [check_hashes]
    answers [False] for every stored text of another length. *)
Theorem make_hashes_length (password : string) :
  String.length (make_hashes password) = 64%nat ∧
  (∀ hashed_text, String.length hashed_text ≠ 64%nat →
     check_hashes password hashed_text = false).
Proof.
  assert (String.length (make_hashes password) = 64%nat) as Hlength.
  { apply hexdigest_length. }
  split; [done|]. intros hashed_text Hother.
  destruct (check_hashes password hashed_text) eqn:Hcheck; [|done].
  apply check_hashes_spec in Hcheck. congruence.
Qed.

(** * The calls as Python runs them *)

(** ** Binding and storing *)

Lemma bind_parameter_int (n : Z) :
  int64 n → bind_parameter (PyInt n) = inr (SqlInteger n).
Proof. intros Hrange. unfold bind_parameter. by rewrite decide_True. Qed.

Lemma bind_parameter_overflow (n : Z) :
  ¬ int64 n → bind_parameter (PyInt n) = inl OverflowError.
Proof. intros Hrange. unfold bind_parameter. by rewrite decide_False. Qed.

Lemma stored_real_nonzero (x : float) :
  PrimFloat.is_zero x = false → stored_real x = x.
Proof. intros Hzero. unfold stored_real. by rewrite Hzero. Qed.

Lemma only_row_in_range (rows : list Inventory.row) (r : Inventory.row) (quantity : Z) :
  NoDup (Inventory.id <$> rows) →
  r ∈ rows →
  int64 (Inventory.quantity r - quantity) →
  Forall (fun r' => Inventory.id r' = Inventory.id r →
                    int64 (Inventory.quantity r' - quantity)) rows.
Proof.
  intros Hkeys Hin Hrange. apply Forall_forall. intros r' Hr' Heq.
  by rewrite (row_of_id rows r' r Hkeys Hr' Hin Heq).
Qed.

Lemma no_row_in_range (rows : list Inventory.row) (item_id quantity : Z) :
  (∀ r, r ∈ rows → Inventory.id r ≠ item_id) →
  Forall (fun r => Inventory.id r = item_id → int64 (Inventory.quantity r - quantity))
    rows.
Proof.
  intros Habsent. apply Forall_forall. intros r Hr Heq. by destruct (Habsent r Hr).
Qed.

(** ** The calls on parameters within range *)

Lemma call_add_item_returns (file : db) (item category : string) (quantity : Z)
    (price : float) (min_stock : Z) :
  int64 quantity → int64 min_stock →
  int64 (Sql.next_rowid (inventory_seq file) (Inventory.id <$> inventory file)) →
  PrimFloat.is_nan price = false →
  Call.add_item file item category quantity price min_stock
  = Returned PyNone (add_item file item category quantity (stored_real price) min_stock).2.
Proof.
  intros Hquantity Hmin Hroom Hprice. unfold Call.add_item.
  rewrite (decide_True (P := int64 quantity ∧ int64 min_stock)) by done.
  rewrite decide_True by done. by rewrite Hprice.
Qed.

Lemma call_update_item_returns (file : db) (item_id : Z) (item category : string)
    (quantity : Z) (price : float) (min_stock : Z) :
  int64 item_id → int64 quantity → int64 min_stock →
  PrimFloat.is_nan price = false →
  Call.update_item file (PyInt item_id) item category quantity price min_stock
  = Returned PyNone
      (update_item file item_id item category quantity (stored_real price) min_stock).2.
Proof.
  intros Hid Hquantity Hmin Hprice. unfold Call.update_item.
  rewrite decide_True by done. rewrite bind_parameter_int by done. by rewrite Hprice.
Qed.

Lemma call_delete_item_returns (file : db) (item_id : Z) :
  int64 item_id →
  Call.delete_item file (PyInt item_id) = Returned PyNone (delete_item file item_id).2.
Proof. intros Hid. unfold Call.delete_item. by rewrite bind_parameter_int. Qed.

Lemma call_delete_item_raises (file : db) (item_id : Z) :
  ¬ int64 item_id →
  Call.delete_item file (PyInt item_id) = Raised OverflowError file.
Proof. intros Hid. unfold Call.delete_item. by rewrite bind_parameter_overflow. Qed.

Lemma call_record_sale_returns (file : db) (now : datetime) (item_id quantity : Z)
    (sale_price : float) :
  int64 item_id → int64 quantity →
  Forall (fun r => Inventory.id r = item_id → int64 (Inventory.quantity r - quantity))
    (inventory file) →
  int64 (Sql.next_rowid (sales_seq file) (Sales.id <$> sales file)) →
  PrimFloat.is_nan sale_price = false →
  Call.record_sale file now (PyInt item_id) quantity sale_price
  = Returned PyNone (record_sale file now item_id quantity (stored_real sale_price)).2.
Proof.
  intros Hid Hquantity Hrows Hroom Hprice. unfold Call.record_sale.
  rewrite (decide_True (P := int64 quantity)) by done.
  rewrite bind_parameter_int by done.
  rewrite (decide_True (P := int64 _)) by done.
  rewrite decide_True by done. by rewrite Hprice.
Qed.

(** ** delete_item *)

(** C6, as the code has it: [delete_item] has no NotFound outcome. On an
    id that no inventory row carries the call changes nothing: for a
    Python int within 64 bits it returns [None], the value it returns for
    every such id, on file or not; outside 64 bits sqlite3 raises
    [OverflowError] when it binds the id. Either way the file, hence the
    inventory listing and its length, is the one it was. *)
Theorem delete_item_absent_id (file : db) (item_id : Z) :
  (∀ r, r ∈ inventory file → Inventory.id r ≠ item_id) →
  (int64 item_id → Call.delete_item file (PyInt item_id) = Returned PyNone file) ∧
  (¬ int64 item_id → Call.delete_item file (PyInt item_id) = Raised OverflowError file) ∧
  (∀ v file', Call.delete_item file (PyInt item_id) = Returned v file' →
     v = PyNone ∧ file' = file ∧
     get_inventory file' = get_inventory file ∧
     length (get_inventory file') = length (get_inventory file)) ∧
  (∀ other, int64 other →
     ∃ file', Call.delete_item file (PyInt other) = Returned PyNone file').
Proof.
  intros Habsent.
  destruct (delete_item_in_range_absent file item_id Habsent) as (Hsame & _).
  assert (int64 item_id →
          Call.delete_item file (PyInt item_id) = Returned PyNone file) as Hreturns.
  { intros Hid. by rewrite call_delete_item_returns, Hsame. }
  split_and!.
  - done.
  - apply call_delete_item_raises.
  - intros v file' Hcall. destruct (decide (int64 item_id)) as [Hid|Hid].
    + rewrite Hreturns in Hcall by done. by injection Hcall as <- <-.
    + by rewrite call_delete_item_raises in Hcall.
  - intros other Hother. eexists. by apply call_delete_item_returns.
Qed.

Lemma delete_item_absent_id_witness :
  (int64 99 → Call.delete_item shop (PyInt 99) = Returned PyNone shop) ∧
  (¬ int64 99 → Call.delete_item shop (PyInt 99) = Raised OverflowError shop) ∧
  (∀ v file', Call.delete_item shop (PyInt 99) = Returned v file' →
     v = PyNone ∧ file' = shop ∧
     get_inventory file' = get_inventory shop ∧
     length (get_inventory file') = length (get_inventory shop)) ∧
  (∀ other, int64 other →
     ∃ file', Call.delete_item shop (PyInt other) = Returned PyNone file').
Proof.
  apply (delete_item_absent_id shop 99).
  intros r Hin. apply list_elem_of_singleton in Hin. subst r. vm_compute. discriminate.
Defined.

(** ** update_item *)

(** C7: [update_item] called with the id of the row at position [k], for
    an id, a quantity and a min_stock within 64 bits and a price that is
    not a NaN, returns [None]; the listing then has at [k] the row with
    that id and the supplied item, category, quantity and min_stock, and
    the price as SQLite reads it back, which is the supplied price unless
    that is a zero. The ids of the listing are the same, in the same
    order; every row with another id is the row it was; nothing outside
    the inventory table changes. *)
Theorem update_item_round_trip (file : db) (item_id : Z) (item category : string)
    (quantity : Z) (price : float) (min_stock : Z) (k : nat) (r : Inventory.row) :
  get_inventory file !! k = Some r →
  Inventory.id r = item_id →
  int64 item_id → int64 quantity → int64 min_stock →
  PrimFloat.is_nan price = false →
  ∃ file',
    Call.update_item file (PyInt item_id) item category quantity price min_stock
    = Returned PyNone file' ∧
    get_inventory file' !! k
    = Some (Inventory.Row item_id item category quantity (stored_real price) min_stock) ∧
    (PrimFloat.is_zero price = false → stored_real price = price) ∧
    Inventory.id <$> get_inventory file' = Inventory.id <$> get_inventory file ∧
    (∀ j other, get_inventory file !! j = Some other → Inventory.id other ≠ item_id →
       get_inventory file' !! j = Some other) ∧
    (∀ changed, changed ∈ get_inventory file' → Inventory.id changed = item_id →
       changed
       = Inventory.Row item_id item category quantity (stored_real price) min_stock) ∧
    users file' = users file ∧ sales file' = sales file ∧
    inventory_seq file' = inventory_seq file ∧ sales_seq file' = sales_seq file.
Proof.
  intros Hrow Hid Hitem Hquantity Hmin Hprice.
  pose proof (update_item_in_range file item_id item category quantity
                (stored_real price) min_stock k r Hrow Hid) as Hcore.
  cbv zeta in Hcore.
  destruct Hcore as (Hat & Hids & Hothers & Hchanged & Husers & Hsales & Hseq & Hsseq).
  eexists. split; [by apply call_update_item_returns|].
  split_and!; try done. apply stored_real_nonzero.
Qed.

Lemma update_item_round_trip_witness :
  ∃ file',
    Call.update_item shop (PyInt 1) "Brown rice" "groceries" 25 650%float 8
    = Returned PyNone file' ∧
    get_inventory file' !! 0%nat
    = Some (Inventory.Row 1 "Brown rice" "groceries" 25 (stored_real 650%float) 8) ∧
    (PrimFloat.is_zero 650%float = false → stored_real 650%float = 650%float) ∧
    Inventory.id <$> get_inventory file' = Inventory.id <$> get_inventory shop ∧
    (∀ j other, get_inventory shop !! j = Some other → Inventory.id other ≠ 1 →
       get_inventory file' !! j = Some other) ∧
    (∀ changed, changed ∈ get_inventory file' → Inventory.id changed = 1 →
       changed
       = Inventory.Row 1 "Brown rice" "groceries" 25 (stored_real 650%float) 8) ∧
    users file' = users shop ∧ sales file' = sales shop ∧
    inventory_seq file' = inventory_seq shop ∧ sales_seq file' = sales_seq shop.
Proof.
  apply (update_item_round_trip shop 1 "Brown rice" "groceries" 25 650%float 8 0%nat
           (Inventory.Row 1 "Rice" "groceries" 10 500%float 5)).
  - reflexivity.
  - reflexivity.
  - unfold int64. lia.
  - unfold int64. lia.
  - unfold int64. lia.
  - reflexivity.
Defined.

(** ** record_sale *)

(** C1: [record_sale] called with the id of the inventory row at position
    [k], whose quantity is [n], returns [None], leaves at [k] the same row
    with quantity [n - quantity], keeps every row with another id, and
    appends exactly one row to the sales table, carrying that item_id, the
    quantity, the price as SQLite reads it back and the clock reading
    formatted to the second (19 characters, the microseconds dropped); the
    sales listing gains exactly one row, with the item's name, the quantity
    and the price. This holds for unique inventory ids, an id and a
    quantity within 64 bits, a difference [n - quantity] within 64 bits, a
    sales table that can take a row and a price that is not a NaN. *)
Theorem record_sale_decrements_and_appends (file : db) (now : datetime)
    (item_id quantity : Z) (sale_price : float) (k : nat) (r : Inventory.row) :
  NoDup (Inventory.id <$> inventory file) →
  inventory file !! k = Some r →
  Inventory.id r = item_id →
  int64 item_id → int64 quantity →
  int64 (Inventory.quantity r - quantity) →
  int64 (Sql.next_rowid (sales_seq file) (Sales.id <$> sales file)) →
  PrimFloat.is_nan sale_price = false →
  let sale_id := Sql.next_rowid (sales_seq file) (Sales.id <$> sales file) in
  ∃ file',
    Call.record_sale file now (PyInt item_id) quantity sale_price
    = Returned PyNone file' ∧
    inventory file' !! k = Some (with_quantity (Inventory.quantity r - quantity) r) ∧
    (∀ j other, inventory file !! j = Some other → Inventory.id other ≠ item_id →
       inventory file' !! j = Some other) ∧
    sales file'
    = sales file
      ++ [Sales.Row sale_id item_id quantity (stored_real sale_price) (strftime now)] ∧
    (PrimFloat.is_zero sale_price = false → stored_real sale_price = sale_price) ∧
    strftime now = strftime (truncate_to_second now) ∧
    String.length (strftime now) = 19%nat ∧
    get_sales file'
    = get_sales file
      ++ [SaleView.Row sale_id (Inventory.item r) quantity (stored_real sale_price)
            (strftime now)] ∧
    users file' = users file.
Proof.
  intros Hkeys Hrow Hid Hitem Hquantity Hleft Hroom Hprice sale_id. subst sale_id.
  pose proof (record_sale_in_range file now item_id quantity (stored_real sale_price)
                k r Hkeys Hrow Hid) as Hcore.
  cbv zeta in Hcore.
  destruct Hcore as (_ & Hat & Hothers & Hsales & Htime & Hlength & Hlisting & Husers).
  eexists. split.
  - apply call_record_sale_returns; try done.
    rewrite <- Hid. apply only_row_in_range; [done| |done].
    by apply list_elem_of_lookup_2 with k.
  - split_and!; try done. apply stored_real_nonzero.
Qed.

Lemma record_sale_decrements_and_appends_witness :
  ∃ file',
    Call.record_sale shop noon (PyInt 1) 3 480%float = Returned PyNone file' ∧
    inventory file' !! 0%nat
    = Some (with_quantity (10 - 3) (Inventory.Row 1 "Rice" "groceries" 10 500%float 5)) ∧
    (∀ j other, inventory shop !! j = Some other → Inventory.id other ≠ 1 →
       inventory file' !! j = Some other) ∧
    sales file'
    = sales shop
      ++ [Sales.Row (Sql.next_rowid (sales_seq shop) (Sales.id <$> sales shop)) 1 3
            (stored_real 480%float) (strftime noon)] ∧
    (PrimFloat.is_zero 480%float = false → stored_real 480%float = 480%float) ∧
    strftime noon = strftime (truncate_to_second noon) ∧
    String.length (strftime noon) = 19%nat ∧
    get_sales file'
    = get_sales shop
      ++ [SaleView.Row (Sql.next_rowid (sales_seq shop) (Sales.id <$> sales shop))
            "Rice" 3 (stored_real 480%float) (strftime noon)] ∧
    users file' = users shop.
Proof.
  apply (record_sale_decrements_and_appends shop noon 1 3 480%float 0%nat
           (Inventory.Row 1 "Rice" "groceries" 10 500%float 5)).
  - apply NoDup_singleton.
  - reflexivity.
  - reflexivity.
  - unfold int64. lia.
  - unfold int64. lia.
  - vm_compute. split; discriminate.
  - vm_compute. split; discriminate.
  - reflexivity.
Defined.

(** The example of the specification: on an item with quantity 10,
    [record_sale(id, 3, 480.0)] leaves quantity 7 and one new row in the
    sales listing. *)
Example record_sale_shop :
  Call.record_sale shop noon (PyInt 1) 3 480%float
  = Returned PyNone (record_sale shop noon 1 3 480%float).2 ∧
  get_inventory (record_sale shop noon 1 3 480%float).2
  = [Inventory.Row 1 "Rice" "groceries" 7 500%float 5] ∧
  get_sales (record_sale shop noon 1 3 480%float).2
  = [SaleView.Row 1 "Rice" 3 480%float "2024-03-09 12:00:00"].
Proof. split_and!; reflexivity. Qed.

(** C9: [record_sale] does not guard the decrement. Called with the id
    of the row at position [k], whose quantity is [n], and a sale quantity
    above [n], it returns [None] and leaves the row with the negative
    quantity [n - quantity]; this for unique inventory ids, an id and a
    quantity within 64 bits, a difference within 64 bits, a sales table
    that can take a row and a price that is not a NaN. *)
Theorem record_sale_oversell (file : db) (now : datetime) (item_id quantity : Z)
    (sale_price : float) (k : nat) (r : Inventory.row) :
  NoDup (Inventory.id <$> inventory file) →
  inventory file !! k = Some r →
  Inventory.id r = item_id →
  Inventory.quantity r < quantity →
  int64 item_id → int64 quantity →
  int64 (Inventory.quantity r - quantity) →
  int64 (Sql.next_rowid (sales_seq file) (Sales.id <$> sales file)) →
  PrimFloat.is_nan sale_price = false →
  ∃ file' r',
    Call.record_sale file now (PyInt item_id) quantity sale_price
    = Returned PyNone file' ∧
    inventory file' !! k = Some r' ∧
    Inventory.id r' = item_id ∧
    Inventory.quantity r' = Inventory.quantity r - quantity ∧
    Inventory.quantity r' < 0.
Proof.
  intros Hkeys Hrow Hid Hover Hitem Hquantity Hleft Hroom Hprice.
  destruct (record_sale_in_range_oversell file now item_id quantity
              (stored_real sale_price) k r Hrow Hid Hover)
    as (_ & r' & Hat & Hid' & Hquantity' & Hnegative).
  eexists. exists r'. split; [|done].
  apply call_record_sale_returns; try done.
  rewrite <- Hid. apply only_row_in_range; [done| |done].
  by apply list_elem_of_lookup_2 with k.
Qed.

Lemma record_sale_oversell_witness :
  ∃ file' r',
    Call.record_sale shop noon (PyInt 1) 12 480%float = Returned PyNone file' ∧
    inventory file' !! 0%nat = Some r' ∧
    Inventory.id r' = 1 ∧
    Inventory.quantity r' = 10 - 12 ∧
    Inventory.quantity r' < 0.
Proof.
  apply (record_sale_oversell shop noon 1 12 480%float 0%nat
           (Inventory.Row 1 "Rice" "groceries" 10 500%float 5)).
  - apply NoDup_singleton.
  - reflexivity.
  - reflexivity.
  - reflexivity.
  - unfold int64. lia.
  - unfold int64. lia.
  - vm_compute. split; discriminate.
  - vm_compute. split; discriminate.
  - reflexivity.
Defined.

(** C10: called with an item_id that no inventory row carries,
    [record_sale] signals no error: it returns [None], the sales table
    gains a row with that dangling item_id, and the inventory table, its
    counter and the users table are what they were; this for an id and a
    quantity within 64 bits, a sales table that can take a row and a price
    that is not a NaN. The foreign key is not enforced. *)
Theorem record_sale_dangling_item (file : db) (now : datetime) (item_id quantity : Z)
    (sale_price : float) :
  (∀ r, r ∈ inventory file → Inventory.id r ≠ item_id) →
  int64 item_id → int64 quantity →
  int64 (Sql.next_rowid (sales_seq file) (Sales.id <$> sales file)) →
  PrimFloat.is_nan sale_price = false →
  let sale_id := Sql.next_rowid (sales_seq file) (Sales.id <$> sales file) in
  ∃ file',
    Call.record_sale file now (PyInt item_id) quantity sale_price
    = Returned PyNone file' ∧
    sales file'
    = sales file
      ++ [Sales.Row sale_id item_id quantity (stored_real sale_price) (strftime now)] ∧
    inventory file' = inventory file ∧
    get_inventory file' = get_inventory file ∧
    inventory_seq file' = inventory_seq file ∧
    users file' = users file ∧
    (∀ r, r ∈ inventory file' → Inventory.id r ≠ item_id) ∧
    Sql.sale_rows (inventory file')
      (Sales.Row sale_id item_id quantity (stored_real sale_price) (strftime now))
    = [].
Proof.
  intros Habsent Hitem Hquantity Hroom Hprice sale_id. subst sale_id.
  pose proof (record_sale_in_range_dangling file now item_id quantity
                (stored_real sale_price) Habsent) as Hcore.
  cbv zeta in Hcore.
  destruct Hcore as (_ & Hsales & Hinv & Hlisting & Hseq & Husers & Hafter).
  eexists. split.
  - apply call_record_sale_returns; try done. by apply no_row_in_range.
  - split_and!; try done. by apply sale_rows_orphan.
Qed.

Lemma record_sale_dangling_item_witness :
  ∃ file',
    Call.record_sale shop noon (PyInt 99) 3 480%float = Returned PyNone file' ∧
    sales file'
    = sales shop
      ++ [Sales.Row (Sql.next_rowid (sales_seq shop) (Sales.id <$> sales shop)) 99 3
            (stored_real 480%float) (strftime noon)] ∧
    inventory file' = inventory shop ∧
    get_inventory file' = get_inventory shop ∧
    inventory_seq file' = inventory_seq shop ∧
    users file' = users shop ∧
    (∀ r, r ∈ inventory file' → Inventory.id r ≠ 99) ∧
    Sql.sale_rows (inventory file')
      (Sales.Row (Sql.next_rowid (sales_seq shop) (Sales.id <$> sales shop)) 99 3
         (stored_real 480%float) (strftime noon))
    = [].
Proof.
  apply (record_sale_dangling_item shop noon 99 3 480%float).
  - intros r Hin. apply list_elem_of_singleton in Hin. subst r. vm_compute. discriminate.
  - unfold int64. lia.
  - unfold int64. lia.
  - vm_compute. split; discriminate.
  - reflexivity.
Defined.

(** Present or not, an id within 64 bits gets the same answer. *)
Example delete_item_same_answer :
  Call.delete_item shop (PyInt 99) = Returned PyNone shop ∧
  Call.delete_item shop (PyInt 1) = Returned PyNone (delete_item shop 1).2 ∧
  get_inventory (delete_item shop 1).2 = [] ∧
  Call.delete_item shop (PyInt 9223372036854775808) = Raised OverflowError shop.
Proof. split_and!; reflexivity. Qed.

(** ** What the calls do out of range *)

Lemma call_record_sale_raises (file : db) (now : datetime) (item_id quantity : Z)
    (sale_price : float) :
  ¬ (int64 item_id ∧ int64 quantity) →
  Call.record_sale file now (PyInt item_id) quantity sale_price
  = Raised OverflowError file.
Proof.
  intros Hrange. unfold Call.record_sale.
  destruct (decide (int64 quantity)) as [Hquantity|Hquantity]; [|done].
  rewrite bind_parameter_overflow; [done|]. intros Hid. by apply Hrange.
Qed.

Lemma call_add_item_raises (file : db) (item category : string) (quantity : Z)
    (price : float) (min_stock : Z) :
  ¬ (int64 quantity ∧ int64 min_stock) →
  Call.add_item file item category quantity price min_stock = Raised OverflowError file.
Proof. intros Hrange. unfold Call.add_item. by rewrite decide_False. Qed.

Lemma call_update_item_raises (file : db) (item_id : Z) (item category : string)
    (quantity : Z) (price : float) (min_stock : Z) :
  ¬ (int64 item_id ∧ int64 quantity ∧ int64 min_stock) →
  Call.update_item file (PyInt item_id) item category quantity price min_stock
  = Raised OverflowError file.
Proof.
  intros Hrange. unfold Call.update_item.
  destruct (decide (int64 quantity ∧ int64 min_stock)) as [[? ?]|?]; [|done].
  rewrite bind_parameter_overflow; [done|]. intros Hid. by apply Hrange.
Qed.

Example record_sale_overflow_error :
  Call.record_sale shop noon (PyInt 1) 9223372036854775808 480%float
  = Raised OverflowError shop.
Proof. apply call_record_sale_raises. unfold int64. lia. Qed.

(** From a stock of -2, a sale of the largest 64-bit quantity leaves a
    REAL in the quantity column. *)
Example record_sale_real_quantity :
  Call.record_sale (record_sale shop noon 1 12 480%float).2 noon (PyInt 1)
    9223372036854775807 480%float
  = Unrepresented.
Proof. vm_compute. reflexivity. Qed.

Example stored_real_negative_zero :
  PrimFloat.classify (-0)%float = NZero ∧
  stored_real (-0)%float = 0%float ∧
  PrimFloat.classify (stored_real (-0)%float) = PZero.
Proof. split_and!; reflexivity. Qed.

(** ** add_item *)

(** X4: [add_item] called with a quantity and a min_stock within 64 bits
    and a price that is not a NaN, on an inventory table that can take a
    row, returns [None] and appends one row to the inventory listing, with
    the item, category, quantity and min_stock it was given, the price as
    SQLite reads it back, and an id that is positive, above the id of every
    row listed and above the table's counter; the counter becomes that id.
    The rows that were there, the users and the sales are untouched. *)
Theorem add_item_appends_fresh_row (file : db) (item category : string)
    (quantity : Z) (price : float) (min_stock : Z) :
  int64 quantity → int64 min_stock →
  int64 (Sql.next_rowid (inventory_seq file) (Inventory.id <$> inventory file)) →
  PrimFloat.is_nan price = false →
  let new_id := Sql.next_rowid (inventory_seq file) (Inventory.id <$> inventory file) in
  ∃ file',
    Call.add_item file item category quantity price min_stock = Returned PyNone file' ∧
    get_inventory file'
    = get_inventory file
      ++ [Inventory.Row new_id item category quantity (stored_real price) min_stock] ∧
    (PrimFloat.is_zero price = false → stored_real price = price) ∧
    (∀ r, r ∈ get_inventory file → Inventory.id r < new_id) ∧
    0 < new_id ∧
    inventory_seq file < new_id ∧
    inventory_seq file' = new_id ∧
    users file' = users file ∧
    sales file' = sales file ∧
    sales_seq file' = sales_seq file.
Proof.
  intros Hquantity Hmin Hroom Hprice new_id. subst new_id.
  pose proof (add_item_in_range file item category quantity (stored_real price)
                min_stock) as Hcore.
  cbv zeta in Hcore.
  destruct Hcore as (_ & Hlisting & Habove & Hpositive & Hcounter & Hseq & Husers
                     & Hsales & Hsseq).
  eexists. split; [by apply call_add_item_returns|].
  split_and!; try done. apply stored_real_nonzero.
Qed.

Lemma add_item_appends_fresh_row_witness :
  ∃ file',
    Call.add_item shop "Beans" "Other" 8 300%float 5 = Returned PyNone file' ∧
    get_inventory file'
    = get_inventory shop
      ++ [Inventory.Row
            (Sql.next_rowid (inventory_seq shop) (Inventory.id <$> inventory shop))
            "Beans" "Other" 8 (stored_real 300%float) 5] ∧
    (PrimFloat.is_zero 300%float = false → stored_real 300%float = 300%float) ∧
    (∀ r, r ∈ get_inventory shop →
       Inventory.id r
       < Sql.next_rowid (inventory_seq shop) (Inventory.id <$> inventory shop)) ∧
    0 < Sql.next_rowid (inventory_seq shop) (Inventory.id <$> inventory shop) ∧
    inventory_seq shop
    < Sql.next_rowid (inventory_seq shop) (Inventory.id <$> inventory shop) ∧
    inventory_seq file'
    = Sql.next_rowid (inventory_seq shop) (Inventory.id <$> inventory shop) ∧
    users file' = users shop ∧
    sales file' = sales shop ∧
    sales_seq file' = sales_seq shop.
Proof.
  apply (add_item_appends_fresh_row shop "Beans" "Other" 8 300%float 5).
  - unfold int64. lia.
  - unfold int64. lia.
  - vm_compute. split; discriminate.
  - reflexivity.
Defined.

Example add_item_shop :
  Call.add_item shop "Beans" "Other" 8 300%float 5
  = Returned PyNone (add_item shop "Beans" "Other" 8 300%float 5).2 ∧
  get_inventory (add_item shop "Beans" "Other" 8 300%float 5).2
  = [Inventory.Row 1 "Rice" "groceries" 10 500%float 5;
     Inventory.Row 2 "Beans" "Other" 8 300%float 5].
Proof. split; reflexivity. Qed.

(** ** update_item on an absent id, and the sales listing *)

(** X7: [update_item] called with an id that no inventory row carries,
    for an id, a quantity and a min_stock within 64 bits, is a silent
    no-op: it returns [None] and the database is the one it was given. *)
Theorem update_item_absent_id (file : db) (item_id : Z) (item category : string)
    (quantity : Z) (price : float) (min_stock : Z) :
  (∀ r, r ∈ inventory file → Inventory.id r ≠ item_id) →
  int64 item_id → int64 quantity → int64 min_stock →
  Call.update_item file (PyInt item_id) item category quantity price min_stock
  = Returned PyNone file.
Proof.
  intros Habsent Hid Hquantity Hmin. unfold Call.update_item.
  rewrite decide_True by done. rewrite bind_parameter_int by done.
  rewrite bool_decide_eq_false_2.
  - rewrite andb_false_r. unfold returned.
    by rewrite (update_item_in_range_absent file item_id item category quantity
                  (stored_real price) min_stock Habsent).
  - intros Hin. apply list_elem_of_fmap in Hin as (r & Heq & Hr).
    by destruct (Habsent r Hr).
Qed.

Lemma update_item_absent_id_witness :
  Call.update_item shop (PyInt 99) "Beans" "Other" 4 300%float 5 = Returned PyNone shop.
Proof.
  apply (update_item_absent_id shop 99 "Beans" "Other" 4 300%float 5).
  - intros r Hin. apply list_elem_of_singleton in Hin. subst r. vm_compute. discriminate.
  - unfold int64. lia.
  - unfold int64. lia.
  - unfold int64. lia.
Defined.

(** X9: the sales listing shows the name an item has now, not the name
    it was sold under. With the ids of the inventory unique, after
    [update_item] called with the id of a listed row (id, quantity and
    min_stock within 64 bits, a price that is not a NaN) every sale of that
    item is listed with the new name and its own id, quantity, price and
    date, and every sale of another item is listed as before. *)
Theorem update_item_renames_sales (file : db) (item_id : Z) (item category : string)
    (quantity : Z) (price : float) (min_stock : Z) (r : Inventory.row) :
  NoDup (Inventory.id <$> inventory file) →
  r ∈ inventory file →
  Inventory.id r = item_id →
  int64 item_id → int64 quantity → int64 min_stock →
  PrimFloat.is_nan price = false →
  ∃ file',
    Call.update_item file (PyInt item_id) item category quantity price min_stock
    = Returned PyNone file' ∧
    sales file' = sales file ∧
    (∀ s, Sales.item_id s = item_id →
       Sql.sale_rows (inventory file') s
       = [SaleView.Row (Sales.id s) item (Sales.quantity s) (Sales.sale_price s)
            (Sales.sale_date s)]) ∧
    (∀ s, Sales.item_id s ≠ item_id →
       Sql.sale_rows (inventory file') s = Sql.sale_rows (inventory file) s) ∧
    length (get_sales file') = length (get_sales file).
Proof.
  intros Hkeys Hin Hid Hitem Hquantity Hmin Hprice.
  pose proof (update_item_in_range_renames file item_id item category quantity
                (stored_real price) min_stock r Hkeys Hin Hid) as Hcore.
  cbv zeta in Hcore.
  eexists. split; [by apply call_update_item_returns|done].
Qed.

Lemma update_item_renames_sales_witness :
  ∃ file',
    Call.update_item (record_sale shop noon 1 3 480%float).2 (PyInt 1) "Brown rice"
      "groceries" 7 650%float 5
    = Returned PyNone file' ∧
    sales file' = sales (record_sale shop noon 1 3 480%float).2 ∧
    (∀ s, Sales.item_id s = 1 →
       Sql.sale_rows (inventory file') s
       = [SaleView.Row (Sales.id s) "Brown rice" (Sales.quantity s) (Sales.sale_price s)
            (Sales.sale_date s)]) ∧
    (∀ s, Sales.item_id s ≠ 1 →
       Sql.sale_rows (inventory file') s
       = Sql.sale_rows (inventory (record_sale shop noon 1 3 480%float).2) s) ∧
    length (get_sales file') = length (get_sales (record_sale shop noon 1 3 480%float).2).
Proof.
  apply (update_item_renames_sales (record_sale shop noon 1 3 480%float).2 1
           "Brown rice" "groceries" 7 650%float 5
           (Inventory.Row 1 "Rice" "groceries" 7 500%float 5)).
  - apply NoDup_singleton.
  - apply list_elem_of_singleton. reflexivity.
  - reflexivity.
  - unfold int64. lia.
  - unfold int64. lia.
  - unfold int64. lia.
  - reflexivity.
Defined.

(** ** Stock and sales *)

(** X10: [record_sale] called with the id of a listed row moves units
    from stock to the sales record and loses none. With the ids of the
    inventory unique, an id and a quantity within 64 bits, a difference of
    stock and quantity within 64 bits, a sales table that can take a row
    and a price that is not a NaN, the call returns [None]; the sold
    item's stock is down by the quantity and its units sold are up by it,
    and for every id the quantity in stock plus the units on record as
    sold is what it was. *)
Theorem record_sale_conserves_stock (file : db) (now : datetime)
    (item_id quantity : Z) (sale_price : float) (r : Inventory.row) :
  NoDup (Inventory.id <$> inventory file) →
  r ∈ inventory file →
  Inventory.id r = item_id →
  int64 item_id → int64 quantity →
  int64 (Inventory.quantity r - quantity) →
  int64 (Sql.next_rowid (sales_seq file) (Sales.id <$> sales file)) →
  PrimFloat.is_nan sale_price = false →
  ∃ file',
    Call.record_sale file now (PyInt item_id) quantity sale_price
    = Returned PyNone file' ∧
    stock_on_hand item_id (inventory file') = Inventory.quantity r - quantity ∧
    units_sold item_id (sales file') = units_sold item_id (sales file) + quantity ∧
    (∀ other,
       stock_on_hand other (inventory file') + units_sold other (sales file')
       = stock_on_hand other (inventory file) + units_sold other (sales file)).
Proof.
  intros Hkeys Hin Hid Hitem Hquantity Hleft Hroom Hprice.
  pose proof (record_sale_in_range_conserves file now item_id quantity
                (stored_real sale_price) r Hkeys Hin Hid) as Hcore.
  cbv zeta in Hcore.
  eexists. split; [|exact Hcore].
  apply call_record_sale_returns; try done.
  rewrite <- Hid. by apply only_row_in_range.
Qed.

Lemma record_sale_conserves_stock_witness :
  ∃ file',
    Call.record_sale shop noon (PyInt 1) 3 480%float = Returned PyNone file' ∧
    stock_on_hand 1 (inventory file') = 10 - 3 ∧
    units_sold 1 (sales file') = units_sold 1 (sales shop) + 3 ∧
    (∀ other,
       stock_on_hand other (inventory file') + units_sold other (sales file')
       = stock_on_hand other (inventory shop) + units_sold other (sales shop)).
Proof.
  apply (record_sale_conserves_stock shop noon 1 3 480%float
           (Inventory.Row 1 "Rice" "groceries" 10 500%float 5)).
  - apply NoDup_singleton.
  - apply list_elem_of_singleton. reflexivity.
  - reflexivity.
  - unfold int64. lia.
  - unfold int64. lia.
  - vm_compute. split; discriminate.
  - vm_compute. split; discriminate.
  - reflexivity.
Defined.

(** ** The buttons of the edit form *)


